(** * Velvet: the rule-evaluation pipeline

    A shallow embedding of the review engine of Velvet
    (src/engine/results.ts, src/dsl/git.ts, src/dsl/github.ts,
    src/dsl/index.ts, src/dsl/functions.ts, src/engine/loader.ts and
    src/engine/evaluator.ts) and the properties of its specification.

    JavaScript objects that are mutated in place (the results collector,
    the Git and GitHub DSL objects) are modelled by explicit state passing;
    a call that may throw returns a [Completion]. *)

From Stdlib Require Import List String Ascii Bool Arith ZArith NArith Lia.
From Stdlib Require DecimalString.
Import ListNotations.

Local Open Scope list_scope.

(** ** JavaScript values the engine handles *)

Module Js.

(** What a [throw] (or a rejected promise) carries. An [Error] instance
    is taken as lib.es5 declares it, with a string [message] and an
    optional string [stack]. Of any other value the engine never reads a
    property: it only takes [String(v)]. Such a value may still have
    [message] and [stack] properties of its own, as [{message, stack}]
    has, and its conversion to a string may itself throw, as that of
    [Object.create(null)] does; [raised] is what the conversion throws. *)
Inductive Thrown : Type :=
| ErrorObject (message : string) (stack : option string)
| OtherValue (message stack : option string) (asString : string)
| NoStringForm (raised : Thrown).

(** A call either returns normally or throws. An awaited promise that
    rejects is a throw at the [await]. *)
Inductive Completion (A : Type) : Type :=
| Returned (a : A)
| Threw (e : Thrown).
Arguments Returned {A} a.
Arguments Threw {A} e.

Definition nl : string := String (ascii_of_nat 10) EmptyString.
Definition dq : string := String (ascii_of_nat 34) EmptyString.

(** Template-literal interpolation of a possibly undefined string. *)
Definition interpolate (s : option string) : string :=
  match s with
  | Some v => v
  | None => "undefined"%string
  end.

(** Truthiness of [string | undefined]: defined and not empty. *)
Definition truthy (s : option string) : bool :=
  match s with
  | Some v => negb (String.eqb v EmptyString)
  | None => false
  end.

(** [s.startsWith(p)] is [String.prefix p s]. [hay.includes(needle)]: *)
Fixpoint includes (needle hay : string) : bool :=
  String.prefix needle hay ||
  match hay with
  | EmptyString => false
  | String _ rest => includes needle rest
  end.

(** [a || b] on strings that may be undefined. *)
Definition orElse (s : option string) (dflt : string) : string :=
  match s with
  | Some v => if String.eqb v EmptyString then dflt else v
  | None => dflt
  end.

(** [s.endsWith(suffix)] *)
Definition endsWith (suffix s : string) : bool :=
  let n := String.length s in
  let k := String.length suffix in
  (k <=? n)%nat && String.eqb (String.substring (n - k) k s) suffix.

(** Code that mutates an object of type [S] in place and may throw:
    the state reached so far survives a throw, as in JavaScript. *)
Definition Action (S A : Type) : Type := S -> S * Completion A.

Definition ret {S A : Type} (a : A) : Action S A :=
  fun s => (s, Returned a).

Definition throw {S A : Type} (e : Thrown) : Action S A :=
  fun s => (s, Threw e).

Definition bind {S A B : Type} (m : Action S A) (k : A -> Action S B)
    : Action S B :=
  fun s =>
    match m s with
    | (s', Returned a) => k a s'
    | (s', Threw e) => (s', Threw e)
    end.

(** [try { m } catch (e) { handler(e) }] *)
Definition tryCatch {S A : Type} (m : Action S A)
    (handler : Thrown -> Action S A) : Action S A :=
  fun s =>
    match m s with
    | (s', Returned a) => (s', Returned a)
    | (s', Threw e) => handler e s'
    end.

(** A call to the outside world: no change of [S], may throw. *)
Definition perform {S A : Type} (c : Completion A) : Action S A :=
  fun s => (s, c).

(** An in-place update that cannot throw. *)
Definition update {S : Type} (f : S -> S) : Action S unit :=
  fun s => (f s, Returned tt).

Definition get {S : Type} : Action S S :=
  fun s => (s, Returned s).

End Js.
Import Js.

Declare Scope action_scope.
Delimit Scope action_scope with action.
Notation "x <- m ;; k" := (bind m (fun x => k))
  (at level 61, m at next level, right associativity) : action_scope.
Notation "m ;; k" := (bind m (fun _ => k))
  (at level 61, right associativity) : action_scope.

(** ** src/engine/results.ts — the results collector *)

Module Results.

Inductive ResultLevel : Type := LevelMessage | LevelWarn | LevelFail.

(** [ReviewResult]; the add operations write [level], [message], [file]
    and [line]. *)
Record ReviewResult : Type := mkReviewResult {
  level : ResultLevel;
  message : string;
  file : option string;
  line : option Z
}.

Record ReviewResults : Type := mkReviewResults {
  messages : list ReviewResult;
  warnings : list ReviewResult;
  failures : list ReviewResult;
  markdowns : list string
}.

(** The state of a [ResultsCollector] is its private [results] field. *)
Definition ResultsCollector : Type := ReviewResults.

Definition empty : ResultsCollector :=
  {| messages := []; warnings := []; failures := []; markdowns := [] |}.

Definition reset (c : ResultsCollector) : ResultsCollector :=
  {| messages := []; warnings := []; failures := []; markdowns := [] |}.

Definition addMessage (msg : string) (f : option string) (l : option Z)
    (c : ResultsCollector) : ResultsCollector :=
  {| messages := messages c ++ [mkReviewResult LevelMessage msg f l];
     warnings := warnings c;
     failures := failures c;
     markdowns := markdowns c |}.

Definition addWarning (msg : string) (f : option string) (l : option Z)
    (c : ResultsCollector) : ResultsCollector :=
  {| messages := messages c;
     warnings := warnings c ++ [mkReviewResult LevelWarn msg f l];
     failures := failures c;
     markdowns := markdowns c |}.

Definition addFailure (msg : string) (f : option string) (l : option Z)
    (c : ResultsCollector) : ResultsCollector :=
  {| messages := messages c;
     warnings := warnings c;
     failures := failures c ++ [mkReviewResult LevelFail msg f l];
     markdowns := markdowns c |}.

Definition addMarkdown (content : string) (c : ResultsCollector)
    : ResultsCollector :=
  {| messages := messages c;
     warnings := warnings c;
     failures := failures c;
     markdowns := markdowns c ++ [content] |}.

Definition getResults (c : ResultsCollector) : ReviewResults := c.

Definition hasFailures (c : ResultsCollector) : bool :=
  (0 <? List.length (failures c))%nat.

Definition hasWarnings (c : ResultsCollector) : bool :=
  (0 <? List.length (warnings c))%nat.

Definition getTotalCount (c : ResultsCollector) : nat :=
  List.length (messages c) + List.length (warnings c)
  + List.length (failures c).

Definition getExitCode (c : ResultsCollector) : Z :=
  if hasFailures c then 1%Z else 0%Z.

Definition fromJSON (data : ReviewResults) (c : ResultsCollector)
    : ResultsCollector := data.

(** One call of an append operation, and a sequence of such calls run in
    order on a collector. *)
Inductive Call : Type :=
| CallAddMessage (msg : string) (f : option string) (l : option Z)
| CallAddWarning (msg : string) (f : option string) (l : option Z)
| CallAddFailure (msg : string) (f : option string) (l : option Z)
| CallAddMarkdown (content : string).

Definition call (k : Call) (c : ResultsCollector) : ResultsCollector :=
  match k with
  | CallAddMessage m f l => addMessage m f l c
  | CallAddWarning m f l => addWarning m f l c
  | CallAddFailure m f l => addFailure m f l c
  | CallAddMarkdown md => addMarkdown md c
  end.

Definition calls (ks : list Call) (c : ResultsCollector)
    : ResultsCollector :=
  fold_left (fun acc k => call k acc) ks c.

Definition isAddFailure (k : Call) : bool :=
  match k with CallAddFailure _ _ _ => true | _ => false end.

Definition isMessageOrWarning (k : Call) : bool :=
  match k with
  | CallAddMessage _ _ _ | CallAddWarning _ _ _ => true
  | _ => false
  end.

End Results.

(** ** The simple-git backend, as src/dsl/git.ts consumes it *)

Module SimpleGit.

(** An entry of [DiffResult.files]. Line counts are natural numbers; for
    a binary entry the counts are not read. *)
Record DiffResultFile : Type := mkDiffResultFile {
  file : string;
  changes : N;
  insertions : N;
  deletions : N;
  binary : bool
}.

(** An entry of [LogResult.all]. *)
Record LogEntry : Type := mkLogEntry {
  hash : string;
  date : string;
  message : string;
  author_name : string
}.

(** [diffSummary([base, "HEAD"])] and [log({from: base, to: "HEAD"})],
    each of which may reject. *)
Record Backend : Type := mkBackend {
  diffSummary : string -> Completion (list DiffResultFile);
  log : string -> Completion (list LogEntry)
}.

End SimpleGit.

(** ** src/dsl/git.ts — the Git DSL *)

Module Git.

(** [date] stands for [new Date(commit.date)], kept as its source text. *)
Record GitCommit : Type := mkGitCommit {
  sha : string;
  author : string;
  date : string;
  message : string
}.

Record GitDiff : Type := mkGitDiff {
  file : string;
  additions : N;
  deletions : N;
  changes : N
}.

(** The public fields of a [Git] object. *)
Record Git : Type := mkGit {
  modified_files : list string;
  created_files : list string;
  deleted_files : list string;
  commits : list GitCommit;
  diffs : list GitDiff
}.

(** The field initialisers of the class. *)
Definition new : Git :=
  {| modified_files := []; created_files := []; deleted_files := [];
     commits := []; diffs := [] |}.

Definition push_created (p : string) (g : Git) : Git :=
  mkGit (modified_files g) (created_files g ++ [p]) (deleted_files g)
        (commits g) (diffs g).

Definition push_deleted (p : string) (g : Git) : Git :=
  mkGit (modified_files g) (created_files g) (deleted_files g ++ [p])
        (commits g) (diffs g).

Definition push_modified (p : string) (g : Git) : Git :=
  mkGit (modified_files g ++ [p]) (created_files g) (deleted_files g)
        (commits g) (diffs g).

Definition push_diff (d : GitDiff) (g : Git) : Git :=
  mkGit (modified_files g) (created_files g) (deleted_files g)
        (commits g) (diffs g ++ [d]).

Definition set_commits (cs : list GitCommit) (g : Git) : Git :=
  mkGit (modified_files g) (created_files g) (deleted_files g)
        cs (diffs g).

(** The if / else-if chain of the loop body. *)
Definition categorize (f : SimpleGit.DiffResultFile) (g : Git) : Git :=
  if (0 <? SimpleGit.insertions f)%N && (SimpleGit.deletions f =? 0)%N
  then push_created (SimpleGit.file f) g
  else if (0 <? SimpleGit.deletions f)%N && (SimpleGit.insertions f =? 0)%N
  then push_deleted (SimpleGit.file f) g
  else if (0 <? SimpleGit.insertions f)%N || (0 <? SimpleGit.deletions f)%N
  then push_modified (SimpleGit.file f) g
  else g.

(** The object literal pushed onto [diffs]. *)
Definition toDiff (f : SimpleGit.DiffResultFile) : GitDiff :=
  {| file := SimpleGit.file f;
     additions := SimpleGit.insertions f;
     deletions := SimpleGit.deletions f;
     changes := SimpleGit.changes f |}.

(** One iteration of [for (const file of diffSummary.files)]. *)
Definition visit (g : Git) (f : SimpleGit.DiffResultFile) : Git :=
  if SimpleGit.binary f then g
  else push_diff (toDiff f) (categorize f g).

Definition toCommit (c : SimpleGit.LogEntry) : GitCommit :=
  {| sha := SimpleGit.hash c;
     author := SimpleGit.author_name c;
     date := SimpleGit.date c;
     message := SimpleGit.message c |}.

(** [initialize(base)]: the whole body sits in one try block whose catch
    only logs, so whatever was pushed before a rejection stays. *)
Definition initialize (backend : SimpleGit.Backend) (base : string)
    (g : Git) : Git :=
  match SimpleGit.diffSummary backend base with
  | Threw _ => g
  | Returned files =>
      let g1 := fold_left visit files g in
      match SimpleGit.log backend base with
      | Threw _ => g1
      | Returned all => set_commits (map toCommit all) g1
      end
  end.

(** [string | string[]] *)
Inductive PatternArg : Type :=
| OnePattern (p : string)
| ManyPatterns (ps : list string).

(** [Array.isArray(pattern) ? pattern : [pattern]] *)
Definition toPatterns (pattern : PatternArg) : list string :=
  match pattern with
  | OnePattern p => [p]
  | ManyPatterns ps => ps
  end.

Record FileMatch : Type := mkFileMatch {
  edited : list string;
  created : list string;
  deleted : list string;
  matches : string -> bool;
  getAll : unit -> list string
}.

Section Glob.

(** Whether a path matches one glob pattern ([micromatch.isMatch(path,
    pattern)]): the glob syntax itself is left open. *)
Variable isMatch : string -> string -> bool.

(** Modelled from the spec: [micromatch(list, patterns)] belongs to the
    micromatch package, which src/ imports but does not contain. The
    specification gives it OR semantics: a path of the list is kept when
    it matches any one of [patterns]. *)
Definition micromatch (paths patterns : list string) : list string :=
  filter (fun path => existsb (isMatch path) patterns) paths.

Definition fileMatch (g : Git) (pattern : PatternArg) : FileMatch :=
  let patterns := toPatterns pattern in
  let matchedEdited := micromatch (modified_files g) patterns in
  let matchedCreated := micromatch (created_files g) patterns in
  let matchedDeleted := micromatch (deleted_files g) patterns in
  {| edited := matchedEdited;
     created := matchedCreated;
     deleted := matchedDeleted;
     matches := fun p =>
       let allFiles :=
         modified_files g ++ created_files g ++ deleted_files g in
       (0 <? List.length (micromatch allFiles [p]))%nat;
     getAll := fun _ => matchedEdited ++ matchedCreated |}.

Definition getChangedFiles (g : Git) : list string :=
  modified_files g ++ created_files g.

Definition hasChanges (g : Git) (pattern : PatternArg) : bool :=
  let m := fileMatch g pattern in
  (0 <? List.length (edited m))%nat
  || (0 <? List.length (created m))%nat
  || (0 <? List.length (deleted m))%nat.

End Glob.

End Git.

(** ** The Octokit client, as src/dsl/github.ts consumes it *)

Module Octokit.

Record User : Type := mkUser {
  login : option string;
  avatar_url : option string;
  html_url : option string
}.

Record Ref : Type := mkRef { ref : string; sha : string }.

Record PullData : Type := mkPullData {
  pull_number : Z;
  pull_title : string;
  pull_body : option string;
  pull_state : string;
  pull_html_url : string;
  pull_additions : Z;
  pull_deletions : Z;
  pull_changed_files : Z;
  pull_user : option User;
  pull_created_at : string;
  pull_updated_at : string;
  pull_merged_at : option string;
  pull_base : Ref;
  pull_head : Ref
}.

Record ReviewData : Type := mkReviewData {
  review_id : Z;
  review_user : option User;
  review_body : option string;
  review_state : string;
  review_submitted_at : option string
}.

Record CommentData : Type := mkCommentData {
  comment_id : Z;
  comment_user : option User;
  comment_body : option string;
  comment_created_at : string;
  comment_path : string;
  comment_line : option Z
}.

(** The four endpoints; a request is identified by the repository and
    pull-request strings of the environment, from which the adapter
    derives [owner], [repo] and [pull_number]. *)
Record Api : Type := mkApi {
  pulls_get : string -> string -> Completion PullData;
  pulls_listReviews : string -> string -> Completion (list ReviewData);
  issues_listComments : string -> string -> Completion (list CommentData);
  pulls_listReviewComments :
    string -> string -> Completion (list CommentData)
}.

End Octokit.

(** ** src/dsl/github.ts — the GitHub DSL *)

Module GitHub.

Local Open Scope string_scope.

Record Author : Type := mkAuthor {
  login : string;
  avatar_url : string;
  author_html_url : string
}.

Record Branch : Type := mkBranch { ref : string; sha : string }.

Record GitHubPR : Type := mkGitHubPR {
  number : Z;
  title : string;
  body : option string;
  state : string;
  html_url : string;
  additions : Z;
  deletions : Z;
  changed_files : Z;
  author : Author;
  created_at : string;
  updated_at : string;
  merged_at : option string;
  base : Branch;
  head : Branch
}.

Record GitHubReview : Type := mkGitHubReview {
  review_id : Z;
  review_user_login : string;
  review_body : string;
  review_state : string;
  submitted_at : string
}.

Record GitHubComment : Type := mkGitHubComment {
  comment_id : Z;
  comment_user_login : string;
  comment_body : string;
  comment_created_at : string;
  path : option string;
  line : option Z
}.

(** The public fields of a [GitHub] object; [pr] is declared with a
    definite-assignment assertion and is undefined until [fetchPR]
    assigns it. *)
Record GitHub : Type := mkGitHub {
  pr : option GitHubPR;
  reviews : list GitHubReview;
  comments : list GitHubComment
}.

(** The object right after [new GitHub()]. *)
Definition new : GitHub := {| pr := None; reviews := []; comments := [] |}.

Definition isDigit (c : ascii) : bool :=
  let n := nat_of_ascii c in ((48 <=? n) && (n <=? 57))%nat.

Fixpoint takeDigits (s : string) : string * string :=
  match s with
  | String c rest =>
      if isDigit c
      then let (d, r) := takeDigits rest in (String c d, r)
      else (EmptyString, s)
  | EmptyString => (EmptyString, EmptyString)
  end.

Definition pullRefAt (s : string) : option string :=
  let p := "refs/pull/" in
  if String.prefix p s then
    let (d, r) :=
      takeDigits
        (String.substring (String.length p)
           (String.length s - String.length p) s) in
    if negb (String.eqb d EmptyString) && String.prefix "/" r
    then Some d else None
  else None.

(** [ref.match(/refs\/pull\/(\d+)\//)], first capture group of the
    leftmost match. *)
Fixpoint matchPullRef (s : string) : option string :=
  match pullRefAt s with
  | Some d => Some d
  | None =>
      match s with
      | String _ rest => matchPullRef rest
      | EmptyString => None
      end
  end.

Definition extractPRNumberFromRef (env : string -> option string)
    : option string :=
  if truthy (env "GITHUB_REF")
  then matchPullRef (interpolate (env "GITHUB_REF"))
  else None.

Definition toAuthor (u : option Octokit.User) : Author :=
  {| login :=
       orElse (match u with Some v => Octokit.login v | None => None end)
              "unknown";
     avatar_url :=
       orElse
         (match u with Some v => Octokit.avatar_url v | None => None end)
         EmptyString;
     author_html_url :=
       orElse (match u with Some v => Octokit.html_url v | None => None end)
              EmptyString |}.

Definition toBranch (r : Octokit.Ref) : Branch :=
  {| ref := Octokit.ref r; sha := Octokit.sha r |}.

Definition toPR (data : Octokit.PullData) : GitHubPR :=
  {| number := Octokit.pull_number data;
     title := Octokit.pull_title data;
     body := Octokit.pull_body data;
     state := Octokit.pull_state data;
     html_url := Octokit.pull_html_url data;
     additions := Octokit.pull_additions data;
     deletions := Octokit.pull_deletions data;
     changed_files := Octokit.pull_changed_files data;
     author := toAuthor (Octokit.pull_user data);
     created_at := Octokit.pull_created_at data;
     updated_at := Octokit.pull_updated_at data;
     merged_at := Octokit.pull_merged_at data;
     base := toBranch (Octokit.pull_base data);
     head := toBranch (Octokit.pull_head data) |}.

Definition toReview (r : Octokit.ReviewData) : GitHubReview :=
  {| review_id := Octokit.review_id r;
     review_user_login := login (toAuthor (Octokit.review_user r));
     review_body := orElse (Octokit.review_body r) EmptyString;
     review_state := Octokit.review_state r;
     submitted_at := orElse (Octokit.review_submitted_at r) EmptyString |}.

Definition toIssueComment (c : Octokit.CommentData) : GitHubComment :=
  {| comment_id := Octokit.comment_id c;
     comment_user_login := login (toAuthor (Octokit.comment_user c));
     comment_body := orElse (Octokit.comment_body c) EmptyString;
     comment_created_at := Octokit.comment_created_at c;
     path := None;
     line := None |}.

Definition toReviewComment (c : Octokit.CommentData) : GitHubComment :=
  {| comment_id := Octokit.comment_id c;
     comment_user_login := login (toAuthor (Octokit.comment_user c));
     comment_body := orElse (Octokit.comment_body c) EmptyString;
     comment_created_at := Octokit.comment_created_at c;
     path := Some (Octokit.comment_path c);
     line :=
       match Octokit.comment_line c with
       | Some l => if (l =? 0)%Z then None else Some l
       | None => None
       end |}.

Section Adapter.

Variable env : string -> option string.
Variable api : Octokit.Api.
(** The stack text the engine attaches to [new Error(message)]. *)
Variable errorStack : string -> string.

Local Open Scope action_scope.

Definition fetchPR (repo prNumberStr : string) : Action GitHub unit :=
  data <- perform (Octokit.pulls_get api repo prNumberStr) ;;
  update (fun g => mkGitHub (Some (toPR data)) (reviews g) (comments g)).

Definition fetchReviews (repo prNumberStr : string)
    : Action GitHub unit :=
  data <- perform (Octokit.pulls_listReviews api repo prNumberStr) ;;
  update (fun g => mkGitHub (pr g) (map toReview data) (comments g)).

Definition fetchComments (repo prNumberStr : string)
    : Action GitHub unit :=
  issueComments <-
    perform (Octokit.issues_listComments api repo prNumberStr) ;;
  reviewComments <-
    perform (Octokit.pulls_listReviewComments api repo prNumberStr) ;;
  update (fun g =>
    mkGitHub (pr g) (reviews g)
      (map toIssueComment issueComments
       ++ map toReviewComment reviewComments)).

Definition initialize : Action GitHub unit :=
  let githubRepo := env "GITHUB_REPOSITORY" in
  let prNumberStr :=
    if truthy (env "GITHUB_PR_NUMBER") then env "GITHUB_PR_NUMBER"
    else extractPRNumberFromRef env in
  if negb (truthy githubRepo) || negb (truthy prNumberStr) then
    let msg := "Missing GitHub environment variables. Set GITHUB_REPOSITORY and GITHUB_PR_NUMBER" in
    throw (ErrorObject msg (Some (errorStack msg)))
  else
    fetchPR (interpolate githubRepo) (interpolate prNumberStr) ;;
    fetchReviews (interpolate githubRepo) (interpolate prNumberStr) ;;
    fetchComments (interpolate githubRepo) (interpolate prNumberStr).

End Adapter.

(** [string | RegExp]; a regular expression is its [test] method. *)
Inductive TitlePattern : Type :=
| Literal (text : string)
| Pattern (test : string -> bool).

(** [titleMatches(pattern)] reads [this.pr.title], a TypeError while
    [pr] is still undefined. *)
Definition titleMatches (errorStack : string -> string) (g : GitHub)
    (pattern : TitlePattern) : Completion bool :=
  match pr g with
  | None =>
      let msg := "Cannot read properties of undefined (reading 'title')" in
      Threw (ErrorObject msg (Some (errorStack msg)))
  | Some p =>
      match pattern with
      | Literal text => Returned (includes text (title p))
      | Pattern test => Returned (test (title p))
      end
  end.

End GitHub.

(** ** src/dsl/types.ts — the object handed to a reviewfile *)

Module Dsl.

Record ReviewDSL : Type := mkReviewDSL {
  git : Git.Git;
  github : option GitHub.GitHub;
  isGitHub : bool;
  env : string -> option string
}.

(** The results collectors of the process: the singleton
    [globalResultsCollector] of src/engine/results.ts and a collector
    the caller may have created and handed to the evaluator. *)
Record Heap : Type := mkHeap {
  globalResultsCollector : Results.ResultsCollector;
  ownCollector : Results.ResultsCollector
}.

Inductive CollectorRef : Type := TheGlobalCollector | AnOwnCollector.

Definition deref (r : CollectorRef) (h : Heap) : Results.ResultsCollector :=
  match r with
  | TheGlobalCollector => globalResultsCollector h
  | AnOwnCollector => ownCollector h
  end.

Definition on (r : CollectorRef)
    (f : Results.ResultsCollector -> Results.ResultsCollector)
    (h : Heap) : Heap :=
  match r with
  | TheGlobalCollector => mkHeap (f (globalResultsCollector h)) (ownCollector h)
  | AnOwnCollector => mkHeap (globalResultsCollector h) (f (ownCollector h))
  end.

(** The default export of a reviewfile: [(review) => Promise<void>]. It
    runs to completion or throws, and whatever it reported before a
    throw stays reported. The review object is read by the reviewfile,
    not written: what a reviewfile could assign to its fields is not
    part of this state. *)
Definition ReviewFunction : Type := ReviewDSL -> Action Heap unit.

End Dsl.

(** ** src/dsl/functions.ts — the reporting functions of a reviewfile *)

Module Functions.

Import Dsl.

Definition message (msg : string) (file : option string) (line : option Z)
    : Action Heap unit :=
  update (on TheGlobalCollector (Results.addMessage msg file line)).

Definition warn (msg : string) (file : option string) (line : option Z)
    : Action Heap unit :=
  update (on TheGlobalCollector (Results.addWarning msg file line)).

Definition fail (msg : string) (file : option string) (line : option Z)
    : Action Heap unit :=
  update (on TheGlobalCollector (Results.addFailure msg file line)).

Definition markdown (content : string) : Action Heap unit :=
  update (on TheGlobalCollector (Results.addMarkdown content)).

Definition resetResults : Action Heap unit :=
  update (on TheGlobalCollector Results.reset).

End Functions.

(** ** What the engine asks of Node and of its packages *)

Inductive DefaultExport : Type :=
| NotCallable
| Callable (f : Dsl.ReviewFunction).

Record Host : Type := mkHost {
cwd : string;
process_env : string -> option string;
existsSync : string -> bool;
(** [fs.accessSync(p, R_OK)] returns rather than throws *)
readable : string -> bool;
path_isAbsolute : string -> bool;
path_resolve : string -> string -> string;
path_join : string -> string -> string;
(** the stack text attached to [new Error(message)] *)
errorStack : string -> string;
(** [simpleGit(repoPath)], [repoPath] undefined meaning the cwd; the
    directory is taken to exist, where the constructor returns *)
simpleGit : option string -> SimpleGit.Backend;
octokit : Octokit.Api;
(** [import(pathToFileURL(filePath).href)] and the module's [default],
    for a module whose top-level code reports nothing *)
import : string -> Completion DefaultExport
}.

Definition newError {S A : Type} (host : Host) (msg : string) : Action S A :=
throw (ErrorObject msg (Some (errorStack host msg))).

(** ** src/dsl/index.ts — building the review context *)

Module Index.

Import Dsl.
Local Open Scope string_scope.

(** The block guarded by [enableGitHub && isGitHub]:
    [try { github = new GitHub(); await github.initialize(); }
     catch (error) { console.warn(...) }].
    The variable is assigned before [initialize] runs and the object is
    mutated in place, so after the catch block, which only warns,
    [github] still refers to the object as the failed call left it. *)
Definition tryInitialize (host : Host) : option GitHub.GitHub :=
  match GitHub.initialize (process_env host) (octokit host)
          (errorStack host) GitHub.new with
  | (obj, Returned _) => Some obj
  | (obj, Threw _) => Some obj
  end.

Definition createReviewContext (host : Host)
    (baseBranch : option string) (enableGitHub : option bool)
    (repoPath : option string) : ReviewDSL :=
  let baseBranch := match baseBranch with Some b => b | None => "main" end in
  let enableGitHub :=
    match enableGitHub with Some b => b | None => true end in
  let git := Git.initialize (simpleGit host repoPath) baseBranch Git.new in
  let isGitHub :=
    truthy (process_env host "GITHUB_ACTIONS")
    && truthy (process_env host "GITHUB_REPOSITORY") in
  let github :=
    if enableGitHub && isGitHub then tryInitialize host else None in
  {| git := git;
     github := github;
     isGitHub := isGitHub;
     env := process_env host |}.

End Index.

(** ** src/engine/loader.ts — locating and loading the reviewfile *)

Module Loader.

Local Open Scope string_scope.

Record ReviewFileInfo : Type := mkReviewFileInfo {
  path : string;
  absolutePath : string;
  exists_ : bool;
  isTypeScript : bool
}.

Definition extensions : list string := [".ts"; ".js"; ".mts"; ".mjs"].
Definition baseName : string := "reviewfile".

(** The [for (const ext of extensions)] loop, which returns from the
    function at the first candidate that exists. *)
Fixpoint probe (host : Host) (projectRoot : string) (exts : list string)
    : option ReviewFileInfo :=
  match exts with
  | [] => None
  | ext :: rest =>
      let fileName := baseName ++ ext in
      let filePath := path_join host projectRoot fileName in
      if existsSync host filePath then
        Some {| path := fileName;
                absolutePath := filePath;
                exists_ := true;
                isTypeScript := String.eqb ext ".ts" || String.eqb ext ".mts" |}
      else probe host projectRoot rest
  end.

Definition findReviewFile (host : Host) (providedPath : option string)
    (projectRoot : option string) : ReviewFileInfo :=
  let projectRoot :=
    match projectRoot with Some r => r | None => cwd host end in
  if truthy providedPath then
    let providedPath := interpolate providedPath in
    let absolutePath :=
      if path_isAbsolute host providedPath then providedPath
      else path_resolve host projectRoot providedPath in
    {| path := providedPath;
       absolutePath := absolutePath;
       exists_ := existsSync host absolutePath;
       isTypeScript := endsWith ".ts" absolutePath |}
  else
    match probe host projectRoot extensions with
    | Some info => info
    | None =>
        let defaultPath := path_join host projectRoot "reviewfile.ts" in
        {| path := "reviewfile.ts";
           absolutePath := defaultPath;
           exists_ := false;
           isTypeScript := true |}
    end.

Definition notExportingFunction : string :=
  "Reviewfile must export a default async function." ++ nl ++ nl ++
  "Example:" ++ nl ++
  "  export default async function(review) {" ++ nl ++
  "    warn(" ++ dq ++ "Example warning" ++ dq ++ ");" ++ nl ++
  "  }".

(** The catch block of [loadReviewFile]. *)
Definition rethrow {S : Type} (host : Host) (filePath : string)
    (error : Thrown) : Action S Dsl.ReviewFunction :=
  match error with
  | ErrorObject message _ =>
      if includes "Cannot find module" message then
        newError host
          ("Failed to load reviewfile: " ++ filePath ++ nl ++
           "File not found or could not be imported.")
      else if includes "Unexpected token" message then
        newError host
          ("Failed to parse reviewfile: " ++ filePath ++ nl ++
           "Syntax error in the file. Please check your TypeScript/JavaScript syntax."
           ++ nl ++ nl ++ "Original error: " ++ message)
      else throw error
  | OtherValue _ _ _ | NoStringForm _ =>
      newError host ("Unknown error loading reviewfile: " ++ filePath)
  end.

Definition loadReviewFile {S : Type} (host : Host) (filePath : string)
    : Action S Dsl.ReviewFunction :=
  tryCatch
    (bind (perform (import host filePath)) (fun module_default =>
       match module_default with
       | NotCallable => newError host notExportingFunction
       | Callable f => ret f
       end))
    (rethrow host filePath).

Definition notFound (info : ReviewFileInfo) : string :=
  "Reviewfile not found: " ++ path info ++ nl ++ nl ++
  "Create a reviewfile.ts to define your review rules:" ++ nl ++ nl ++
  "  import { warn, fail, message } from 'code-review-ai';" ++ nl ++ nl ++
  "  export default async function(review) {" ++ nl ++
  "    // Your review logic here" ++ nl ++
  "    if (review.git.fileMatch(" ++ dq ++ "package.json" ++ dq ++
  ").edited.length > 0) {" ++ nl ++
  "      warn(" ++ dq ++ "package.json was modified" ++ dq ++ ");" ++ nl ++
  "    }" ++ nl ++
  "  }" ++ nl ++ nl ++
  "Or run: review-ai init".

Definition validateReviewFile {S : Type} (host : Host)
    (info : ReviewFileInfo) : Action S unit :=
  if negb (exists_ info) then newError host (notFound info)
  else if readable host (absolutePath info) then ret tt
  else
    newError host
      ("Reviewfile is not readable: " ++ path info ++ nl ++
       "Please check file permissions.").

End Loader.

(** ** src/engine/evaluator.ts — the rule evaluator *)

Module Evaluator.

Import Dsl.
Local Open Scope string_scope.

Record EvaluatorOptions : Type := mkEvaluatorOptions {
  reviewFilePath : option string;
  baseBranch : option string;
  enableGitHub : option bool;
  projectRoot : option string;
  resultsCollector : option CollectorRef
}.

(** [Required<EvaluatorOptions>], the private [options] field. *)
Record Options : Type := mkOptions {
  opt_reviewFilePath : string;
  opt_baseBranch : string;
  opt_enableGitHub : bool;
  opt_projectRoot : string;
  opt_resultsCollector : CollectorRef
}.

(** The constructor of [RuleEvaluator]. *)
Definition new (host : Host) (options : EvaluatorOptions) : Options :=
  {| opt_reviewFilePath := orElse (reviewFilePath options) EmptyString;
     opt_baseBranch := orElse (baseBranch options) "main";
     opt_enableGitHub :=
       match enableGitHub options with
       | Some false => false
       | _ => true
       end;
     opt_projectRoot := orElse (projectRoot options) (cwd host);
     opt_resultsCollector :=
       match resultsCollector options with
       | Some c => c
       | None => TheGlobalCollector
       end |}.

Record EvaluationResult : Type := mkEvaluationResult {
  review : ReviewDSL;
  results : CollectorRef;
  reviewFile : Loader.ReviewFileInfo;
  passed : bool;
  exitCode : Z
}.

(** The text of the failure recorded for a value the reviewfile threw:
    the two template literals of the catch block. The second evaluates
    [String(error)], unguarded, and throws what that conversion
    throws. *)
Definition executionFailure (error : Thrown) : Completion string :=
  match error with
  | ErrorObject message stack =>
      Returned ("Review execution failed: " ++ message ++ nl ++ nl ++
                "Stack trace:" ++ nl ++ interpolate stack)
  | OtherValue _ _ asString =>
      Returned ("Review execution failed with unknown error: " ++ asString)
  | NoStringForm raised => Threw raised
  end.

Local Open Scope action_scope.

Definition executeReviewFile (this : Options)
    (reviewFunction : ReviewFunction) (review : ReviewDSL)
    : Action Heap unit :=
  tryCatch (reviewFunction review)
    (fun error =>
       text <- perform (executionFailure error) ;;
       update (on (opt_resultsCollector this)
                  (Results.addFailure text None None))).

Definition evaluate (host : Host) (this : Options)
    : Action Heap EvaluationResult :=
  update (on (opt_resultsCollector this) Results.reset) ;;
  let reviewFile :=
    Loader.findReviewFile host (Some (opt_reviewFilePath this))
      (Some (opt_projectRoot this)) in
  Loader.validateReviewFile host reviewFile ;;
  let review :=
    Index.createReviewContext host (Some (opt_baseBranch this))
      (Some (opt_enableGitHub this)) (Some (opt_projectRoot this)) in
  reviewFunction <-
    Loader.loadReviewFile host (Loader.absolutePath reviewFile) ;;
  executeReviewFile this reviewFunction review ;;
  heap <- get ;;
  ret {| review := review;
         results := opt_resultsCollector this;
         reviewFile := reviewFile;
         passed :=
           negb (Results.hasFailures
                   (deref (opt_resultsCollector this) heap));
         exitCode :=
           Results.getExitCode (deref (opt_resultsCollector this) heap) |}.

(** [runReview(options)] *)
Definition runReview (host : Host) (options : EvaluatorOptions)
    : Action Heap EvaluationResult :=
  evaluate host (new host options).

End Evaluator.

(** ** The classification rule, in the words of the specification *)

Module Classification.

Import SimpleGit.

(** created: lines added and none deleted *)
Definition isCreated (f : DiffResultFile) : bool :=
  (0 <? insertions f)%N && (deletions f =? 0)%N.

(** deleted: lines deleted and none added *)
Definition isDeleted (f : DiffResultFile) : bool :=
  (0 <? deletions f)%N && (insertions f =? 0)%N.

(** modified: any other combination with a nonzero change *)
Definition isModified (f : DiffResultFile) : bool :=
  negb (isCreated f) && negb (isDeleted f)
  && negb ((insertions f =? 0)%N && (deletions f =? 0)%N).

(** The paths of the entries of [files] that are not binary and
    satisfy [kind], in the order of [files]. *)
Definition pathsOf (kind : DiffResultFile -> bool)
    (files : list DiffResultFile) : list string :=
  map file (filter (fun f => negb (binary f) && kind f) files).

(** [path] is in exactly one of the three buckets of [g]. *)
Definition inExactlyOneBucket (g : Git.Git) (path : string) : Prop :=
  (In path (Git.created_files g)
     /\ ~ In path (Git.modified_files g) /\ ~ In path (Git.deleted_files g))
  \/ (~ In path (Git.created_files g)
     /\ In path (Git.modified_files g) /\ ~ In path (Git.deleted_files g))
  \/ (~ In path (Git.created_files g)
     /\ ~ In path (Git.modified_files g) /\ In path (Git.deleted_files g)).

Definition inNoBucket (g : Git.Git) (path : string) : Prop :=
  ~ In path (Git.created_files g)
  /\ ~ In path (Git.modified_files g) /\ ~ In path (Git.deleted_files g).

End Classification.

(** ** A small concrete host, used to run the engine on examples *)

Module Sample.

Import Dsl.
Local Open Scope string_scope.

Definition textFile (name : string) (added deleted : N)
    : SimpleGit.DiffResultFile :=
  {| SimpleGit.file := name;
     SimpleGit.changes := added + deleted;
     SimpleGit.insertions := added;
     SimpleGit.deletions := deleted;
     SimpleGit.binary := false |}.

(** The three entries of the first scenario of the specification. *)
Definition threeFiles : list SimpleGit.DiffResultFile :=
  [textFile "a.ts" 10 0; textFile "b.ts" 0 5; textFile "c.ts" 3 2].

Definition unavailable {A : Type} (what : string) : Completion A :=
  Threw (ErrorObject what None).

Definition healthyGit : SimpleGit.Backend :=
  {| SimpleGit.diffSummary := fun _ => Returned threeFiles;
     SimpleGit.log := fun _ =>
       Returned [SimpleGit.mkLogEntry "abc123" "2024-01-01"
                   "feat: add new feature" "John Doe"] |}.

(** The diff summary is served, the commit log is not. *)
Definition logFailsGit : SimpleGit.Backend :=
  {| SimpleGit.diffSummary := fun _ => Returned threeFiles;
     SimpleGit.log := fun _ => unavailable "fatal: bad revision" |}.

(** Not a repository: the first query already fails. *)
Definition noGit : SimpleGit.Backend :=
  {| SimpleGit.diffSummary := fun _ =>
       unavailable "fatal: not a git repository";
     SimpleGit.log := fun _ => unavailable "fatal: not a git repository" |}.

(** A diff summary with one entry that has no added and no deleted
    line, such as a change of file mode. *)
Definition modeChangeGit : SimpleGit.Backend :=
  {| SimpleGit.diffSummary := fun _ => Returned [textFile "run.sh" 0 0];
     SimpleGit.log := fun _ => Returned [] |}.

Definition unreachableApi : Octokit.Api :=
  {| Octokit.pulls_get := fun _ _ => unavailable "HttpError: Not Found";
     Octokit.pulls_listReviews := fun _ _ =>
       unavailable "HttpError: Not Found";
     Octokit.issues_listComments := fun _ _ =>
       unavailable "HttpError: Not Found";
     Octokit.pulls_listReviewComments := fun _ _ =>
       unavailable "HttpError: Not Found" |}.

Definition noEnv : string -> option string := fun _ => None.

(** The environment of a pull-request run in GitHub Actions. *)
Definition actionsEnv : string -> option string :=
  fun name =>
    if String.eqb name "GITHUB_ACTIONS" then Some "true"
    else if String.eqb name "GITHUB_REPOSITORY" then Some "rgourley/Velvet"
    else if String.eqb name "GITHUB_REF" then Some "refs/pull/7/merge"
    else None.

(** A host whose project root is [/repo], in which exactly the files of
    [present] exist (all readable), and where importing any file
    yields [rule] as default export. *)
Definition host (present : list string) (backend : SimpleGit.Backend)
    (environment : string -> option string) (rule : ReviewFunction)
    : Host :=
  {| cwd := "/repo";
     process_env := environment;
     existsSync := fun p => existsb (String.eqb p) present;
     readable := fun p => existsb (String.eqb p) present;
     path_isAbsolute := String.prefix "/";
     path_resolve := fun root p => root ++ "/" ++ p;
     path_join := fun root p => root ++ "/" ++ p;
     errorStack := fun msg => "Error: " ++ msg;
     simpleGit := fun _ => backend;
     octokit := unreachableApi;
     import := fun _ => Returned (Callable rule) |}.

Local Open Scope action_scope.

Definition boom : Thrown :=
  ErrorObject "boom" (Some "Error: boom at reviewfile.ts:3:9").

(** The reviewfile of the second scenario: [fail("x")], then a throw. *)
Definition failThenThrow : ReviewFunction :=
  fun _ => Functions.fail "x" None None ;; throw boom.

Definition quiet : ReviewFunction := fun _ => ret tt.



(** What [throw Object.create(null)] throws: [String] of it throws a
    TypeError. *)
Definition bareObject : Thrown :=
  NoStringForm
    (ErrorObject "Cannot convert object to primitive value"
       (Some "TypeError: Cannot convert object to primitive value")).

(** A reviewfile that warns and then throws a value without a string
    form. *)
Definition warnThenThrowBare : ReviewFunction :=
  fun _ => Functions.warn "w" None None ;; throw bareObject.

Definition freshHeap : Heap :=
  {| globalResultsCollector := Results.empty;
     ownCollector := Results.empty |}.

Definition defaultOptions : Evaluator.EvaluatorOptions :=
  {| Evaluator.reviewFilePath := None;
     Evaluator.baseBranch := None;
     Evaluator.enableGitHub := None;
     Evaluator.projectRoot := None;
     Evaluator.resultsCollector := None |}.

(** The same, with a collector of the caller's own. *)
Definition ownCollectorOptions : Evaluator.EvaluatorOptions :=
  {| Evaluator.reviewFilePath := None;
     Evaluator.baseBranch := None;
     Evaluator.enableGitHub := None;
     Evaluator.projectRoot := None;
     Evaluator.resultsCollector := Some AnOwnCollector |}.

(** Exact string equality as the matcher: what a glob without any
    special character does. *)
Definition literalMatch (path pattern : string) : bool :=
  String.eqb path pattern.

End Sample.

(** ** src/engine/results.ts — the summary and the markdown report *)

Module Render.

Import Results.
Local Open Scope string_scope.

(** Interpolation of an array length. *)
Definition showLength (n : nat) : string :=
  DecimalString.NilEmpty.string_of_uint (Nat.to_uint n).

(** Interpolation of a line number, taken to be integral and of fewer
    than 22 digits, where JavaScript prints all of them. *)
Definition showNumber (z : Z) : string :=
  DecimalString.NilEmpty.string_of_int (Z.to_int z).

(** Truthiness of [number | undefined]: defined and not zero. *)
Definition truthyNumber (l : option Z) : bool :=
  match l with
  | Some z => negb (z =? 0)%Z
  | None => false
  end.

Definition formatSummary (c : ResultsCollector) : string :=
  let parts : list string := [] in
  let parts :=
    if (0 <? List.length (failures c))%nat
    then (parts ++ [(showLength (List.length (failures c)) ++ " failure(s)")%string])%list
    else parts in
  let parts :=
    if (0 <? List.length (warnings c))%nat
    then (parts ++ [(showLength (List.length (warnings c)) ++ " warning(s)")%string])%list
    else parts in
  let parts :=
    if (0 <? List.length (messages c))%nat
    then (parts ++ [(showLength (List.length (messages c)) ++ " message(s)")%string])%list
    else parts in
  if (0 <? List.length parts)%nat then String.concat ", " parts
  else "No issues found".

(** The [location] suffix of a bullet of the markdown report: the file in
    backticks, followed by the line when there is one. *)
Definition markdownLocation (r : ReviewResult) : string :=
  if truthy (file r) then
    " `" ++ interpolate (file r)
    ++ (if truthyNumber (line r)
        then ":" ++ showNumber (match line r with Some z => z | None => 0%Z end)
        else EmptyString)
    ++ "`"
  else EmptyString.

Definition bullet (r : ReviewResult) : string :=
  "- " ++ message r ++ markdownLocation r.

(** One of the three blocks "Failures", "Warnings", "Messages", which the
    source writes out three times: heading, one bullet per finding, and
    an empty line; nothing when there is no finding. *)
Definition findingsBlock (heading : string) (rs : list ReviewResult)
    : list string :=
  if (0 <? List.length rs)%nat
  then ([(heading ++ nl)%string] ++ map bullet rs ++ [EmptyString])%list
  else [].

Definition banner (c : ResultsCollector) : string :=
  let summary := formatSummary c in
  if hasFailures c then "❌ **Review Failed:** " ++ summary ++ nl
  else if hasWarnings c
  then "⚠️ **Review Passed with Warnings:** " ++ summary ++ nl
  else "✅ **Review Passed:** " ++ summary ++ nl.

Definition footer : string :=
  nl ++ "---" ++ nl
  ++ "*Generated by [velvet](https://github.com/yourusername/velvet)*".

(** The [output] array of [formatAsMarkdown], before it is joined. *)
Definition markdownOutput (c : ResultsCollector) : list string :=
  ([("## 🤖 Code Review Results" ++ nl)%string]
   ++ [banner c]
   ++ findingsBlock "### ❌ Failures" (failures c)
   ++ findingsBlock "### ⚠️ Warnings" (warnings c)
   ++ findingsBlock "### 💬 Messages" (messages c)
   ++ (if (0 <? List.length (markdowns c))%nat
       then [("---" ++ nl)%string;
             String.concat (nl ++ nl)%string (markdowns c); EmptyString]
       else [])
   ++ [footer])%list.

Definition formatAsMarkdown (c : ResultsCollector) : string :=
  String.concat nl (markdownOutput c).

End Render.

(** ** Reviewfiles that only report *)

Module Script.

Import Dsl.
Local Open Scope action_scope.

(** The function of src/dsl/functions.ts behind an append call. *)
Definition report (k : Results.Call) : Action Heap unit :=
  match k with
  | Results.CallAddMessage m f l => Functions.message m f l
  | Results.CallAddWarning m f l => Functions.warn m f l
  | Results.CallAddFailure m f l => Functions.fail m f l
  | Results.CallAddMarkdown md => Functions.markdown md
  end.

Fixpoint reports (ks : list Results.Call) : Action Heap unit :=
  match ks with
  | [] => ret tt
  | k :: rest => report k ;; reports rest
  end.

(** A reviewfile whose body makes the reporting calls [ks], in order,
    whatever the context, and returns. *)
Definition reviewfile (ks : list Results.Call) : ReviewFunction :=
  fun _ => reports ks.

End Script.

(** ** src/commands/local.ts — the exit status of the local command *)

Module Commands.

Import Dsl.
Local Open Scope string_scope.

Record LocalOptions : Type := mkLocalOptions {
  base : option string;
  reviewfile : option string;
  verbose : option bool
}.

(** [localCommand(options)], as far as the process exit status goes:
    what it prints is left out. The evaluator is created without
    [projectRoot] and without a collector, GitHub forced off; the status
    is [result.exitCode], or 1 when [evaluate] throws. *)
Definition localCommand (host : Host) (options : LocalOptions)
    : Heap -> Heap * Z :=
  fun h =>
    let baseBranch := orElse (base options) "main" in
    let reviewFilePath := orElse (reviewfile options) "./reviewfile.ts" in
    let evaluator :=
      Evaluator.new host
        {| Evaluator.reviewFilePath := Some reviewFilePath;
           Evaluator.baseBranch := Some baseBranch;
           Evaluator.enableGitHub := Some false;
           Evaluator.projectRoot := None;
           Evaluator.resultsCollector := None |} in
    match Evaluator.evaluate host evaluator h with
    | (h', Returned result) => (h', Evaluator.exitCode result)
    | (h', Threw _) => (h', 1%Z)
    end.

End Commands.

(** ** Decimal numerals, as the regular expression of the ref reads them *)

Module RefSyntax.

(** Every character of [s] is one of 0 to 9. *)
Fixpoint allDigits (s : string) : bool :=
  match s with
  | EmptyString => true
  | String c rest => GitHub.isDigit c && allDigits rest
  end.

End RefSyntax.

(** * Properties *)

(** ** The results collector *)

Section CollectorFacts.

Import Results.

Lemma hasFailures_nonempty (c : ResultsCollector) :
  hasFailures c = true <-> failures c <> [].
Proof.
  unfold hasFailures. destruct (failures c) as [|r rs]; simpl.
  - split; [discriminate | congruence].
  - split; [discriminate | reflexivity].
Qed.

Lemma failures_call (k : Call) (c : ResultsCollector) :
  failures (call k c) = failures c
  \/ exists r, isAddFailure k = true /\ failures (call k c) = failures c ++ [r].
Proof.
  destruct k; simpl; auto. right. eexists. split; reflexivity.
Qed.

Lemma hasFailures_call_mono (k : Call) (c : ResultsCollector) :
  hasFailures c = true -> hasFailures (call k c) = true.
Proof.
  rewrite !hasFailures_nonempty.
  destruct (failures_call k c) as [-> | (r & _ & ->)]; auto.
  intros _ H. apply app_eq_nil in H. destruct H; discriminate.
Qed.

Lemma hasFailures_calls_mono (ks : list Call) (c : ResultsCollector) :
  hasFailures c = true -> hasFailures (calls ks c) = true.
Proof.
  revert c. induction ks as [|k ks IH]; intros c H; simpl; auto.
  apply IH, hasFailures_call_mono, H.
Qed.

Lemma hasFailures_after_failure (ks : list Call) (c : ResultsCollector) :
  existsb isAddFailure ks = true -> hasFailures (calls ks c) = true.
Proof.
  revert c. induction ks as [|k ks IH]; intros c; simpl; [discriminate|].
  destruct (isAddFailure k) eqn:Hk; simpl.
  - intros _. apply hasFailures_calls_mono.
    destruct k; try discriminate. apply hasFailures_nonempty. simpl.
    intros H. apply app_eq_nil in H. destruct H; discriminate.
  - intros H. apply IH, H.
Qed.

Lemma failures_without_failure (ks : list Call) (c : ResultsCollector) :
  existsb isAddFailure ks = false -> failures (calls ks c) = failures c.
Proof.
  revert c. induction ks as [|k ks IH]; intros c; simpl; auto.
  destruct (isAddFailure k) eqn:Hk; simpl; [discriminate|].
  intros H. change (failures (calls ks (call k c)) = failures c).
  rewrite (IH _ H). destruct k; simpl in *; congruence.
Qed.

Lemma messages_warnings_no_failure (ks : list Call) :
  forallb isMessageOrWarning ks = true -> existsb isAddFailure ks = false.
Proof.
  induction ks as [|k ks IH]; simpl; auto.
  intros H. apply andb_true_iff in H. destruct H as [Hk Hks].
  rewrite (IH Hks). destruct k; simpl in *; congruence.
Qed.

End CollectorFacts.

(** ** The evaluator, step by step *)

Section EvaluatorFacts.

Import Dsl Evaluator.

Variable host : Host.
Variable this : Options.

Let target : CollectorRef := opt_resultsCollector this.
Let located : Loader.ReviewFileInfo :=
  Loader.findReviewFile host (Some (opt_reviewFilePath this))
    (Some (opt_projectRoot this)).
Let context : ReviewDSL :=
  Index.createReviewContext host (Some (opt_baseBranch this))
    (Some (opt_enableGitHub this)) (Some (opt_projectRoot this)).

Lemma deref_on_same (r : CollectorRef)
    (f : Results.ResultsCollector -> Results.ResultsCollector) (h : Heap) :
  deref r (on r f h) = f (deref r h).
Proof. destruct r; reflexivity. Qed.

Lemma validateReviewFile_heap (info : Loader.ReviewFileInfo) (h : Heap) :
  fst (Loader.validateReviewFile host info h) = h.
Proof.
  unfold Loader.validateReviewFile, newError, throw, ret.
  destruct (negb (Loader.exists_ info)); [reflexivity|].
  destruct (readable host (Loader.absolutePath info)); reflexivity.
Qed.

Lemma validateReviewFile_ok (info : Loader.ReviewFileInfo) (h : Heap) :
  Loader.exists_ info = true ->
  readable host (Loader.absolutePath info) = true ->
  Loader.validateReviewFile host info h = (h, Returned tt).
Proof.
  intros He Hr. unfold Loader.validateReviewFile. rewrite He, Hr.
  reflexivity.
Qed.

Lemma loadReviewFile_heap (filePath : string) (h : Heap) :
  fst (Loader.loadReviewFile host filePath h) = h.
Proof.
  unfold Loader.loadReviewFile, tryCatch, bind, perform.
  destruct (import host filePath) as [[|f]|[m st|m st v|raised]]; simpl;
    repeat match goal with
           | |- context [if ?c then _ else _] => destruct c
           end; reflexivity.
Qed.

Lemma loadReviewFile_ok (filePath : string) (f : ReviewFunction) (h : Heap) :
  import host filePath = Returned (Callable f) ->
  Loader.loadReviewFile host filePath h = (h, Returned f).
Proof.
  intros Hi. unfold Loader.loadReviewFile, tryCatch, bind, perform.
  rewrite Hi. reflexivity.
Qed.

(** [executeReviewFile] catches what the reviewfile throws; it throws
    itself only when turning the caught value into text throws. *)
Lemma executeReviewFile_cases (f : ReviewFunction) (review : ReviewDSL)
    (h : Heap) :
  executeReviewFile this f review h =
    match f review h with
    | (h1, Returned _) => (h1, Returned tt)
    | (h1, Threw e) =>
        match executionFailure e with
        | Returned text =>
            (on target (Results.addFailure text None None) h1, Returned tt)
        | Threw raised => (h1, Threw raised)
        end
    end.
Proof.
  unfold executeReviewFile, tryCatch, bind, perform, update.
  destruct (f review h) as [h1 [[]|e]]; [reflexivity|].
  destruct (executionFailure e); reflexivity.
Qed.

(** Once the reviewfile is located, readable and loaded, [evaluate]
    does what [executeReviewFile] does, and its verdict is read off the
    collector as the reviewfile (and the catch block) left it. *)
Lemma evaluate_after_loading (f : ReviewFunction) (h : Heap) :
  Loader.exists_ located = true ->
  readable host (Loader.absolutePath located) = true ->
  import host (Loader.absolutePath located) = Returned (Callable f) ->
  evaluate host this h =
    match executeReviewFile this f context (on target Results.reset h) with
    | (h', Returned _) =>
        (h', Returned
               {| review := context;
                  results := target;
                  reviewFile := located;
                  passed := negb (Results.hasFailures (deref target h'));
                  exitCode := Results.getExitCode (deref target h') |})
    | (h', Threw e) => (h', Threw e)
    end.
Proof.
  intros He Hr Hi. unfold evaluate.
  unfold bind at 1. unfold update at 1.
  fold target located context.
  unfold bind at 1. rewrite (validateReviewFile_ok _ _ He Hr).
  unfold bind at 1. rewrite (loadReviewFile_ok _ _ _ Hi).
  unfold bind at 1.
  destruct (executeReviewFile this f context (on target Results.reset h))
    as [h3 [[]|e]]; reflexivity.
Qed.

(** Whenever [evaluate] returns, the verdict agrees with the collector
    the result refers to. *)
Lemma evaluate_verdict (h h' : Heap) (r : EvaluationResult) :
  evaluate host this h = (h', Returned r) ->
  passed r = negb (Results.hasFailures (deref (results r) h'))
  /\ exitCode r = Results.getExitCode (deref (results r) h').
Proof.
  unfold evaluate. fold target located context.
  unfold bind at 1. unfold update at 1.
  unfold bind at 1.
  destruct (Loader.validateReviewFile host located _) as [h1 [[]|e]];
    [|discriminate].
  unfold bind at 1.
  destruct (Loader.loadReviewFile host _ h1) as [h2 [f|e]]; [|discriminate].
  unfold bind at 1.
  destruct (executeReviewFile this f context h2) as [h3 [[]|e]];
    unfold bind, get, ret; intros H; inversion H; subst; simpl; auto.
Qed.

End EvaluatorFacts.

(** ** Building the change set *)

Section GitFacts.

Import SimpleGit Git Classification.

Lemma N_pos_nonzero (n : N) : (0 <? n)%N = negb (n =? 0)%N.
Proof.
  destruct (N.eqb_spec n 0) as [->|Hn]; simpl; [reflexivity|].
  apply N.ltb_lt. lia.
Qed.

(** The else-if chain of the source and the rule of the specification
    select the same bucket. *)
Lemma categorize_by_rule (f : DiffResultFile) (g : Git) :
  categorize f g =
    if isCreated f then push_created (SimpleGit.file f) g
    else if isDeleted f then push_deleted (SimpleGit.file f) g
    else if isModified f then push_modified (SimpleGit.file f) g
    else g.
Proof.
  unfold categorize, isModified, isCreated, isDeleted.
  rewrite !N_pos_nonzero.
  destruct (insertions f =? 0)%N, (SimpleGit.deletions f =? 0)%N;
    reflexivity.
Qed.

Lemma rule_exclusive (f : DiffResultFile) :
  (isCreated f = true -> isDeleted f = false /\ isModified f = false)
  /\ (isDeleted f = true -> isCreated f = false /\ isModified f = false)
  /\ (isModified f = true -> isCreated f = false /\ isDeleted f = false).
Proof.
  unfold isModified, isCreated, isDeleted. rewrite !N_pos_nonzero.
  destruct (insertions f =? 0)%N, (SimpleGit.deletions f =? 0)%N;
    simpl; repeat split; congruence.
Qed.

(** The loop over the diff summary, whatever the object held before. *)
Lemma loop_result (files : list DiffResultFile) (g : Git) :
  fold_left visit files g =
    {| modified_files := modified_files g ++ pathsOf isModified files;
       created_files := created_files g ++ pathsOf isCreated files;
       deleted_files := deleted_files g ++ pathsOf isDeleted files;
       commits := commits g;
       diffs :=
         diffs g ++ map toDiff (filter (fun f => negb (binary f)) files) |}.
Proof.
  revert g. induction files as [|f files IH]; intros g.
  - unfold pathsOf. simpl. rewrite !app_nil_r. destruct g; reflexivity.
  - simpl fold_left. rewrite IH. unfold visit, pathsOf. simpl filter.
    destruct (binary f); simpl negb; simpl andb.
    + reflexivity.
    + rewrite categorize_by_rule.
      destruct (rule_exclusive f) as (Hc & Hd & Hm).
      destruct (isCreated f) eqn:Ec.
      * destruct (Hc eq_refl) as [-> ->]. simpl.
        rewrite <- !app_assoc. reflexivity.
      * destruct (isDeleted f) eqn:Ed.
        -- destruct (Hd eq_refl) as [_ ->]. simpl.
           rewrite <- !app_assoc. reflexivity.
        -- destruct (isModified f) eqn:Em; simpl;
             rewrite <- !app_assoc; reflexivity.
Qed.

(** A fresh object after [initialize], when the diff summary was
    served: the commit log does not touch the file lists. *)
Lemma initialize_files (backend : Backend) (base : string)
    (files : list DiffResultFile) :
  diffSummary backend base = Returned files ->
  let g := initialize backend base Git.new in
  modified_files g = pathsOf isModified files
  /\ created_files g = pathsOf isCreated files
  /\ deleted_files g = pathsOf isDeleted files
  /\ diffs g = map toDiff (filter (fun f => negb (binary f)) files).
Proof.
  intros Hd g. subst g. unfold initialize. rewrite Hd, loop_result.
  destruct (log backend base); simpl; auto.
Qed.

Lemma initialize_no_summary (backend : Backend) (base : string)
    (e : Thrown) (g : Git) :
  diffSummary backend base = Threw e -> initialize backend base g = g.
Proof. intros Hd. unfold initialize. rewrite Hd. reflexivity. Qed.

Lemma in_pathsOf (kind : DiffResultFile -> bool)
    (files : list DiffResultFile) (path : string) :
  In path (pathsOf kind files) <->
  exists f, In f files /\ binary f = false /\ kind f = true
            /\ SimpleGit.file f = path.
Proof.
  unfold pathsOf. rewrite in_map_iff. split.
  - intros (f & Hp & Hf). apply filter_In in Hf. destruct Hf as [Hin Hk].
    apply andb_true_iff in Hk. destruct Hk as [Hb Hk].
    exists f. rewrite negb_true_iff in Hb. auto.
  - intros (f & Hin & Hb & Hk & Hp). exists f. split; [assumption|].
    apply filter_In. split; [assumption|]. rewrite Hb, Hk. reflexivity.
Qed.

End GitFacts.

Section BucketFacts.

Import SimpleGit Git Classification.

Lemma nodup_key_injective {A B : Type} (key : A -> B) (l : list A) (a b : A) :
  NoDup (map key l) -> In a l -> In b l -> key a = key b -> a = b.
Proof.
  induction l as [|x l IH]; simpl; [contradiction|].
  intros Hnd Ha Hb Hk. inversion Hnd as [|? ? Hx Hl]; subst.
  destruct Ha as [->|Ha], Hb as [->|Hb]; auto.
  - exfalso. apply Hx. rewrite Hk. apply in_map, Hb.
  - exfalso. apply Hx. rewrite <- Hk. apply in_map, Ha.
Qed.

Variable files : list DiffResultFile.

Let textFiles : list DiffResultFile :=
  filter (fun f => negb (binary f)) files.

Hypothesis distinct : NoDup (map SimpleGit.file textFiles).

Lemma in_textFiles (f : DiffResultFile) :
  In f textFiles <-> In f files /\ binary f = false.
Proof.
  unfold textFiles. rewrite filter_In, negb_true_iff. reflexivity.
Qed.

(** With distinct paths, the bucket of a path is decided by the one
    entry that carries it. *)
Lemma bucket_of_entry (kind : DiffResultFile -> bool) (f : DiffResultFile) :
  In f textFiles ->
  (In (SimpleGit.file f) (pathsOf kind files) <-> kind f = true).
Proof.
  intros Hf. rewrite in_pathsOf. split.
  - intros (f' & Hin & Hb & Hk & Hp).
    assert (f' = f) as <-; [|assumption].
    apply (nodup_key_injective SimpleGit.file textFiles); auto.
    apply in_textFiles. auto.
  - intros Hk. apply in_textFiles in Hf. destruct Hf as [Hin Hb].
    exists f. auto.
Qed.

End BucketFacts.

(** * The claims of the specification *)

(** C8. [reset()] is idempotent: resetting twice leaves the collector in
  the same state as resetting once, and that state has all four lists
  (messages, warnings, failures, markdowns) empty. *)
Theorem C8_reset_idempotent :
forall c : Results.ResultsCollector,
  Results.reset (Results.reset c) = Results.reset c
  /\ Results.messages (Results.reset c) = []
  /\ Results.warnings (Results.reset c) = []
  /\ Results.failures (Results.reset c) = []
  /\ Results.markdowns (Results.reset c) = [].
Proof. intros c. repeat split. Qed.

(** C10. Each append operation changes its own list only: it appends
  exactly one entry there and leaves the three other lists as they
  were. *)
Theorem C10_append_frame :
forall (c : Results.ResultsCollector) (msg : string) (file : option string)
       (line : option Z) (content : string),
  (let c' := Results.addMessage msg file line c in
   Results.messages c' =
     Results.messages c
     ++ [Results.mkReviewResult Results.LevelMessage msg file line]
   /\ Results.warnings c' = Results.warnings c
   /\ Results.failures c' = Results.failures c
   /\ Results.markdowns c' = Results.markdowns c)
  /\ (let c' := Results.addWarning msg file line c in
      Results.warnings c' =
        Results.warnings c
        ++ [Results.mkReviewResult Results.LevelWarn msg file line]
      /\ Results.messages c' = Results.messages c
      /\ Results.failures c' = Results.failures c
      /\ Results.markdowns c' = Results.markdowns c)
  /\ (let c' := Results.addFailure msg file line c in
      Results.failures c' =
        Results.failures c
        ++ [Results.mkReviewResult Results.LevelFail msg file line]
      /\ Results.messages c' = Results.messages c
      /\ Results.warnings c' = Results.warnings c
      /\ Results.markdowns c' = Results.markdowns c)
  /\ (let c' := Results.addMarkdown content c in
      Results.markdowns c' = Results.markdowns c ++ [content]
      /\ Results.messages c' = Results.messages c
      /\ Results.warnings c' = Results.warnings c
      /\ Results.failures c' = Results.failures c).
Proof. intros. repeat split. Qed.

(** C3. For every collector state, the verdict [passed] (the negation of
  [hasFailures()]) is false exactly when a failure was recorded, and the
  exit code is 0 when passed and 1 otherwise; this is the verdict every
  returning [evaluate] reports about its collector. Any sequence of
  append calls with at least one [addFailure] among them, from any
  state, ends with [hasFailures()] true and exit code 1; a sequence of
  [addMessage] and [addWarning] calls alone leaves the exit code as it
  was, so 0 from a collector that was just reset. *)
Theorem C3_verdict_and_exit_code :
forall (c : Results.ResultsCollector) (ks : list Results.Call),
  (negb (Results.hasFailures c) = false <-> Results.failures c <> [])
  /\ Results.getExitCode c
     = (if negb (Results.hasFailures c) then 0 else 1)%Z
  /\ (existsb Results.isAddFailure ks = true ->
      Results.hasFailures (Results.calls ks c) = true
      /\ Results.getExitCode (Results.calls ks c) = 1%Z)
  /\ (forallb Results.isMessageOrWarning ks = true ->
      Results.getExitCode (Results.calls ks c) = Results.getExitCode c
      /\ Results.getExitCode (Results.calls ks (Results.reset c)) = 0%Z)
  /\ (forall host this h h' r,
        Evaluator.evaluate host this h = (h', Returned r) ->
        let final := Dsl.deref (Evaluator.results r) h' in
        (Evaluator.passed r = false <-> Results.failures final <> [])
        /\ Evaluator.exitCode r
           = (if Evaluator.passed r then 0 else 1)%Z).
Proof.
intros c ks. split; [|split; [|split; [|split]]].
- rewrite negb_false_iff. apply hasFailures_nonempty.
- unfold Results.getExitCode. destruct (Results.hasFailures c); reflexivity.
- intros Hk. unfold Results.getExitCode.
  rewrite (hasFailures_after_failure ks c Hk). auto.
- intros Hk. apply messages_warnings_no_failure in Hk.
  unfold Results.getExitCode, Results.hasFailures.
  rewrite !(failures_without_failure ks _ Hk). auto.
- intros host this h h' r He final.
  destruct (evaluate_verdict host this h h' r He) as [Hp Hx].
  fold final in Hp, Hx. rewrite Hp, Hx. split.
  + rewrite negb_false_iff. apply hasFailures_nonempty.
  + unfold Results.getExitCode.
    destruct (Results.hasFailures final); reflexivity.
Qed.

(** C2. Every diff entry that is not binary is placed by its own loop
  iteration as the rule says: lines added and none deleted, in
  [created_files] only; lines deleted and none added, in
  [deleted_files] only; any other combination with a nonzero change, in
  [modified_files] only; no line added and none deleted, in no bucket.
  Over a whole diff summary the three buckets therefore list, in order,
  the paths selected by the rule, and the entries
  [{a.ts,+10,-0}, {b.ts,+0,-5}, {c.ts,+3,-2}] give created = [a.ts],
  deleted = [b.ts], modified = [c.ts]. *)
Theorem C2_classification_rule :
(forall (g : Git.Git) (f : SimpleGit.DiffResultFile),
    SimpleGit.binary f = false ->
    let g' := Git.visit g f in
    let p := SimpleGit.file f in
    let added := SimpleGit.insertions f in
    let removed := SimpleGit.deletions f in
    ((0 < added)%N /\ removed = 0%N ->
       Git.created_files g' = Git.created_files g ++ [p]
       /\ Git.modified_files g' = Git.modified_files g
       /\ Git.deleted_files g' = Git.deleted_files g)
    /\ ((0 < removed)%N /\ added = 0%N ->
       Git.deleted_files g' = Git.deleted_files g ++ [p]
       /\ Git.created_files g' = Git.created_files g
       /\ Git.modified_files g' = Git.modified_files g)
    /\ (~ ((0 < added)%N /\ removed = 0%N)
        /\ ~ ((0 < removed)%N /\ added = 0%N)
        /\ (added <> 0%N \/ removed <> 0%N) ->
       Git.modified_files g' = Git.modified_files g ++ [p]
       /\ Git.created_files g' = Git.created_files g
       /\ Git.deleted_files g' = Git.deleted_files g)
    /\ (added = 0%N /\ removed = 0%N ->
       Git.created_files g' = Git.created_files g
       /\ Git.modified_files g' = Git.modified_files g
       /\ Git.deleted_files g' = Git.deleted_files g))
/\ (forall (backend : SimpleGit.Backend) (base : string)
           (files : list SimpleGit.DiffResultFile),
      SimpleGit.diffSummary backend base = Returned files ->
      let g := Git.initialize backend base Git.new in
      Git.created_files g
        = Classification.pathsOf Classification.isCreated files
      /\ Git.deleted_files g
        = Classification.pathsOf Classification.isDeleted files
      /\ Git.modified_files g
        = Classification.pathsOf Classification.isModified files)
/\ (let g := Git.initialize Sample.healthyGit "main" Git.new in
    Git.created_files g = ["a.ts"%string]
    /\ Git.deleted_files g = ["b.ts"%string]
    /\ Git.modified_files g = ["c.ts"%string]).
Proof.
split; [|split].
- intros g f Hb g' p added removed. subst g' p added removed.
  unfold Git.visit, Git.categorize. rewrite Hb.
  repeat split.
  all: try match goal with
           | H : _ /\ _ |- _ => destruct H as (H1 & H2)
           end.
  all: try match goal with
           | H : _ /\ _ |- _ => destruct H as (H3 & H4)
           end.
  all: destruct (N.ltb_spec 0 (SimpleGit.insertions f));
    destruct (N.ltb_spec 0 (SimpleGit.deletions f));
    destruct (N.eqb_spec (SimpleGit.insertions f) 0);
    destruct (N.eqb_spec (SimpleGit.deletions f) 0);
    simpl; try reflexivity; try lia.
  all: exfalso; intuition lia.
- intros backend base files Hd g.
  destruct (initialize_files backend base files Hd) as (Hm & Hc & Hx & _).
  auto.
- repeat split.
Qed.

(** Witness of C2 on the entries of the scenario, one loop iteration
  each from a fresh object, and on the whole summary. *)
Lemma C2_classification_rule_witness :
Git.created_files (Git.visit Git.new (Sample.textFile "a.ts" 10 0))
  = ["a.ts"%string]
/\ Git.deleted_files (Git.visit Git.new (Sample.textFile "b.ts" 0 5))
  = ["b.ts"%string]
/\ Git.modified_files (Git.visit Git.new (Sample.textFile "c.ts" 3 2))
  = ["c.ts"%string]
/\ Git.modified_files (Git.visit Git.new (Sample.textFile "run.sh" 0 0))
  = []
/\ Git.created_files (Git.initialize Sample.healthyGit "main" Git.new)
  = Classification.pathsOf Classification.isCreated Sample.threeFiles.
Proof.
pose proof C2_classification_rule as (Hstep & Hall & _).
split; [|split; [|split; [|split]]].
- apply (Hstep Git.new (Sample.textFile "a.ts" 10 0) eq_refl).
  split; [reflexivity | reflexivity].
- apply (Hstep Git.new (Sample.textFile "b.ts" 0 5) eq_refl).
  split; [reflexivity | reflexivity].
- apply (Hstep Git.new (Sample.textFile "c.ts" 3 2) eq_refl).
  split; [|split]; simpl; [intros [_ H]; discriminate H
                          | intros [_ H]; discriminate H
                          | left; discriminate].
- apply (Hstep Git.new (Sample.textFile "run.sh" 0 0) eq_refl).
  split; reflexivity.
- apply (Hall Sample.healthyGit "main"%string Sample.threeFiles eq_refl).
Defined.

(** C6, as the code has it. After construction, and provided the paths
  recorded in [diffs] are pairwise distinct, every entry of [diffs]
  with a line added or deleted has its path in exactly one of
  [created_files], [modified_files] and [deleted_files]; an entry with
  no line added and none deleted is recorded in [diffs] and is in none
  of the three. Binary entries are in neither: [diffs] and the buckets
  hold paths of non-binary entries only. *)
Theorem C6_diff_paths_bucketed :
forall (backend : SimpleGit.Backend) (base : string),
  let g := Git.initialize backend base Git.new in
  NoDup (map Git.file (Git.diffs g)) ->
  (forall d : Git.GitDiff,
      In d (Git.diffs g) ->
      (Git.additions d <> 0%N \/ Git.deletions d <> 0%N ->
         Classification.inExactlyOneBucket g (Git.file d))
      /\ (Git.additions d = 0%N /\ Git.deletions d = 0%N ->
         Classification.inNoBucket g (Git.file d)))
  /\ (forall files : list SimpleGit.DiffResultFile,
        SimpleGit.diffSummary backend base = Returned files ->
        Git.diffs g
          = map Git.toDiff
              (filter (fun f => negb (SimpleGit.binary f)) files)
        /\ forall p : string,
             In p (Git.created_files g ++ Git.modified_files g
                   ++ Git.deleted_files g) ->
             exists f, In f files /\ SimpleGit.binary f = false
                       /\ SimpleGit.file f = p).
Proof.
intros backend base g Hnd.
destruct (SimpleGit.diffSummary backend base) as [files|e] eqn:Hd.
- destruct (initialize_files backend base files Hd) as (Hm & Hc & Hx & Hdf).
  fold g in Hm, Hc, Hx, Hdf.
  assert (Hdistinct :
    NoDup (map SimpleGit.file
             (filter (fun f => negb (SimpleGit.binary f)) files))).
  { rewrite Hdf, map_map in Hnd. exact Hnd. }
  split.
  + intros d Hin. rewrite Hdf in Hin. apply in_map_iff in Hin.
    destruct Hin as (f & <- & Hf).
    pose proof (bucket_of_entry files Hdistinct Classification.isCreated f Hf)
      as Bc.
    pose proof (bucket_of_entry files Hdistinct Classification.isModified f Hf)
      as Bm.
    pose proof (bucket_of_entry files Hdistinct Classification.isDeleted f Hf)
      as Bd.
    unfold Classification.inExactlyOneBucket, Classification.inNoBucket.
    rewrite Hm, Hc, Hx. simpl Git.file. simpl Git.additions.
    simpl Git.deletions. rewrite Bc, Bm, Bd.
    unfold Classification.isModified, Classification.isCreated,
      Classification.isDeleted. rewrite !N_pos_nonzero.
    destruct (N.eqb_spec (SimpleGit.insertions f) 0) as [Ei|Ei];
      destruct (N.eqb_spec (SimpleGit.deletions f) 0) as [Ed|Ed];
      simpl; split; intros H; try (exfalso; intuition congruence).
    all: intuition congruence.
  + intros files' Hf'. inversion Hf'; subst files'. split; [exact Hdf|].
    intros p Hp. rewrite Hm, Hc, Hx in Hp.
    rewrite !in_app_iff, !in_pathsOf in Hp.
    destruct Hp as [(f & ? & ? & _ & ?) | [(f & ? & ? & _ & ?)
                                          | (f & ? & ? & _ & ?)]];
      exists f; auto.
- split; [|discriminate].
  intros d Hin. exfalso.
  unfold g in Hin. rewrite (initialize_no_summary _ _ e _ Hd) in Hin.
  exact Hin.
Qed.

(** Witness of C6 on the three entries of the scenario. *)
Lemma C6_diff_paths_bucketed_witness :
let g := Git.initialize Sample.healthyGit "main" Git.new in
Classification.inExactlyOneBucket g "c.ts".
Proof.
intros g.
assert (Hnd : NoDup (map Git.file (Git.diffs g))).
{ repeat constructor; simpl; intuition discriminate. }
destruct (C6_diff_paths_bucketed Sample.healthyGit "main"%string Hnd)
  as [Hd _].
apply (Hd (Git.toDiff (Sample.textFile "c.ts" 3 2))).
- simpl. auto.
- left. discriminate.
Defined.

(** C6 as stated fails: an entry with no line added and none deleted is
  recorded in [diffs], and its path is in none of the three buckets. *)
Lemma C6_counterexample :
let g := Git.initialize Sample.modeChangeGit "main" Git.new in
In "run.sh"%string (map Git.file (Git.diffs g))
/\ ~ Classification.inExactlyOneBucket g "run.sh".
Proof.
split.
- simpl. auto.
- unfold Classification.inExactlyOneBucket. simpl. tauto.
Qed.

(** ** Glob queries *)

Section GlobFacts.

Import Git.

Variable isMatch : string -> string -> bool.

Lemma micromatch_app (xs ys patterns : list string) :
  micromatch isMatch (xs ++ ys) patterns
  = micromatch isMatch xs patterns ++ micromatch isMatch ys patterns.
Proof. unfold micromatch. apply filter_app. Qed.

Lemma in_micromatch (paths patterns : list string) (path : string) :
  In path (micromatch isMatch paths patterns) <->
  In path paths /\ exists p, In p patterns /\ isMatch path p = true.
Proof.
  unfold micromatch. rewrite filter_In, existsb_exists. reflexivity.
Qed.

Lemma nonempty_length {A : Type} (l : list A) :
  (0 <? List.length l)%nat = true <-> l <> [].
Proof.
  destruct l; simpl; split; try congruence; try discriminate; reflexivity.
Qed.

Lemma in_getAll (g : Git) (patterns : list string) (path : string) :
  In path (getAll (fileMatch isMatch g (ManyPatterns patterns)) tt) <->
  (In path (modified_files g) \/ In path (created_files g))
  /\ exists p, In p patterns /\ isMatch path p = true.
Proof.
  simpl. rewrite in_app_iff, !in_micromatch. tauto.
Qed.

End GlobFacts.

(** C5. For every change set and every single pattern [p],
  [hasChanges(p)] is true exactly when [fileMatch(p)] has a non-empty
  [edited], [created] or [deleted] list, and it has the value of
  [matches(p)], which any [FileMatch] of that change set computes over
  the whole, unfiltered list of modified, created and deleted files. *)
Theorem C5_hasChanges_agrees_with_matches :
forall (isMatch : string -> string -> bool) (g : Git.Git) (p : string)
       (other : Git.PatternArg),
  let m := Git.fileMatch isMatch g (Git.OnePattern p) in
  (Git.hasChanges isMatch g (Git.OnePattern p) = true <->
     Git.edited m <> [] \/ Git.created m <> [] \/ Git.deleted m <> [])
  /\ Git.hasChanges isMatch g (Git.OnePattern p) = Git.matches m p
  /\ Git.matches (Git.fileMatch isMatch g other) p = Git.matches m p.
Proof.
intros isMatch g p other m. split; [|split].
- unfold Git.hasChanges. fold m.
  rewrite !orb_true_iff, !nonempty_length. tauto.
- unfold Git.hasChanges. subst m. simpl.
  rewrite !micromatch_app, !length_app.
  destruct (Git.micromatch isMatch (Git.modified_files g) [p]),
           (Git.micromatch isMatch (Git.created_files g) [p]),
           (Git.micromatch isMatch (Git.deleted_files g) [p]);
    reflexivity.
- reflexivity.
Qed.

(** C7. [fileMatch] ORs its patterns: the paths of
  [fileMatch([p1, p2]).getAll()] include, and are exactly, those of
  [fileMatch([p1]).getAll()] together with those of
  [fileMatch([p2]).getAll()]; for any list of patterns, [getAll()] holds
  the modified and created paths that match any one of them. *)
Theorem C7_fileMatch_pattern_or :
forall (isMatch : string -> string -> bool) (g : Git.Git) (p1 p2 : string),
  let all ps := Git.getAll (Git.fileMatch isMatch g (Git.ManyPatterns ps)) tt in
  incl (all [p1] ++ all [p2]) (all [p1; p2])
  /\ incl (all [p1; p2]) (all [p1] ++ all [p2])
  /\ forall (ps : list string) (path : string),
       In path (all ps) <->
       (In path (Git.modified_files g) \/ In path (Git.created_files g))
       /\ exists p, In p ps /\ isMatch path p = true.
Proof.
intros isMatch g p1 p2 all.
assert (Hall : forall ps path,
  In path (all ps) <->
  (In path (Git.modified_files g) \/ In path (Git.created_files g))
  /\ exists p, In p ps /\ isMatch path p = true).
{ intros ps path. apply in_getAll. }
split; [|split; [|exact Hall]].
- intros path Hin. apply in_app_iff in Hin. apply Hall.
  destruct Hin as [Hin|Hin]; apply Hall in Hin;
    destruct Hin as (Hf & p & Hp & Hm); split; auto;
    exists p; split; auto; simpl in *; tauto.
- intros path Hin. apply Hall in Hin.
  destruct Hin as (Hf & p & Hp & Hm). apply in_app_iff.
  destruct Hp as [Hp | [Hp | []]]; [left|right]; apply Hall; split; auto;
    exists p; simpl; auto.
Qed.

(** ** Locating the reviewfile *)

Section LocatorFacts.

Import Loader.
Local Open Scope string_scope.

Variable host : Host.
Variable root : string.

Let candidate (ext : string) : string :=
  path_join host root ("reviewfile" ++ ext).

Lemma probe_first (before after : list string) (ext : string) :
  (forall e, In e before -> existsSync host (candidate e) = false) ->
  existsSync host (candidate ext) = true ->
  probe host root (before ++ ext :: after) =
    Some {| path := "reviewfile" ++ ext;
            absolutePath := candidate ext;
            exists_ := true;
            isTypeScript := String.eqb ext ".ts" || String.eqb ext ".mts" |}.
Proof.
  intros Hb He. induction before as [|b before IH];
    cbn [probe app]; unfold baseName.
  - fold (candidate ext). rewrite He. reflexivity.
  - fold (candidate b). rewrite (Hb b (or_introl eq_refl)).
    apply IH. intros e Hin. apply Hb. right. exact Hin.
Qed.

Lemma probe_none (exts : list string) :
  (forall e, In e exts -> existsSync host (candidate e) = false) ->
  probe host root exts = None.
Proof.
  induction exts as [|b exts IH]; intros Hb; cbn [probe]; [reflexivity|].
  unfold baseName. fold (candidate b). rewrite (Hb b (or_introl eq_refl)).
  apply IH. intros e Hin. apply Hb. right. exact Hin.
Qed.

End LocatorFacts.

(** C9. Without an explicit path (none, or the empty string the
  evaluator passes), [findReviewFile] probes [reviewfile.ts],
  [reviewfile.js], [reviewfile.mts], [reviewfile.mjs] in the project
  root, in this order, and returns the first that exists, marked
  existing; when none exists it returns [reviewfile.ts] in the project
  root, marked non-existent. *)
Theorem C9_default_reviewfile :
forall (host : Host) (providedPath projectRoot : option string),
  truthy providedPath = false ->
  let root := match projectRoot with Some r => r | None => cwd host end in
  let candidate ext := path_join host root ("reviewfile" ++ ext)%string in
  let found := Loader.findReviewFile host providedPath projectRoot in
  (forall (before after : list string) (ext : string),
      [".ts"; ".js"; ".mts"; ".mjs"]%string = before ++ ext :: after ->
      (forall e, In e before -> existsSync host (candidate e) = false) ->
      existsSync host (candidate ext) = true ->
      Loader.path found = ("reviewfile" ++ ext)%string
      /\ Loader.absolutePath found = candidate ext
      /\ Loader.exists_ found = true)
  /\ ((forall e, In e [".ts"; ".js"; ".mts"; ".mjs"]%string ->
                 existsSync host (candidate e) = false) ->
      Loader.path found = "reviewfile.ts"%string
      /\ Loader.absolutePath found = candidate ".ts"%string
      /\ Loader.exists_ found = false
      /\ Loader.isTypeScript found = true).
Proof.
intros host providedPath projectRoot Hp root candidate found.
subst found. unfold Loader.findReviewFile. rewrite Hp. fold root. split.
- intros before after ext Hl Hb He. unfold Loader.extensions. rewrite Hl.
  rewrite (probe_first host root before after ext Hb He). auto.
- intros Hnone. rewrite (probe_none host root Loader.extensions Hnone).
  auto.
Qed.

(** Witness of C9: only [reviewfile.js] exists in [/repo]; and nothing
  exists there. *)
Lemma C9_default_reviewfile_witness :
Loader.path
  (Loader.findReviewFile
     (Sample.host ["/repo/reviewfile.js"%string] Sample.noGit
        Sample.noEnv Sample.quiet) (Some EmptyString) None)
  = "reviewfile.js"%string
/\ Loader.exists_
     (Loader.findReviewFile
        (Sample.host [] Sample.noGit Sample.noEnv Sample.quiet)
        None None)
   = false.
Proof.
split.
- destruct (C9_default_reviewfile
              (Sample.host ["/repo/reviewfile.js"%string] Sample.noGit
                 Sample.noEnv Sample.quiet)
              (Some EmptyString) None eq_refl) as [Hfirst _].
  apply (Hfirst [".ts"%string] [".mts"; ".mjs"]%string ".js"%string eq_refl).
  + intros e [<-|[]]. reflexivity.
  + reflexivity.
- destruct (C9_default_reviewfile
              (Sample.host [] Sample.noGit Sample.noEnv Sample.quiet)
              None None eq_refl) as [_ Hnone].
  apply Hnone. intros e _. reflexivity.
Defined.

(** ** Containment of reviewfile errors *)

Section TextFacts.

Local Open Scope string_scope.

Lemma prefix_empty (s : string) : String.prefix EmptyString s = true.
Proof. destruct s; reflexivity. Qed.

Lemma prefix_append (needle rest : string) :
  String.prefix needle (needle ++ rest) = true.
Proof.
  induction needle as [|c needle IH]; simpl; [apply prefix_empty|].
  destruct (ascii_dec c c) as [_|Hc]; [exact IH | contradiction].
Qed.

Lemma includes_here (needle hay : string) :
  String.prefix needle hay = true -> includes needle hay = true.
Proof. intros H. destruct hay; cbn [includes]; rewrite H; reflexivity. Qed.

Lemma includes_append (before needle rest : string) :
  includes needle (before ++ needle ++ rest) = true.
Proof.
  induction before as [|c before IH].
  - change (includes needle (needle ++ rest) = true).
    apply includes_here, prefix_append.
  - cbn [append includes]. rewrite IH. apply orb_true_r.
Qed.

Lemma append_empty (s : string) : s ++ EmptyString = s.
Proof. induction s; simpl; congruence. Qed.

Lemma append_associative (a b c : string) : (a ++ b) ++ c = a ++ b ++ c.
Proof. induction a; simpl; congruence. Qed.




End TextFacts.




(** The scenario with a collector of the caller's own: [fail("x")]
    still writes to the process-global collector, and the result holds
    one failure, the wrapped error. *)
Lemma scenario_with_own_collector :
  exists (r : Evaluator.EvaluationResult) (h' : Dsl.Heap) (text : string),
    Evaluator.runReview
      (Sample.host ["/repo/reviewfile.ts"%string] Sample.healthyGit
         Sample.noEnv Sample.failThenThrow)
      Sample.ownCollectorOptions Sample.freshHeap = (h', Returned r)
    /\ Evaluator.executionFailure Sample.boom = Returned text
    /\ Results.failures (Dsl.deref (Evaluator.results r) h')
       = [Results.mkReviewResult Results.LevelFail text None None]
    /\ Results.failures (Dsl.globalResultsCollector h')
       = [Results.mkReviewResult Results.LevelFail "x" None None]
    /\ Evaluator.passed r = false
    /\ Evaluator.exitCode r = 1%Z.
Proof.
  eexists. eexists. eexists. split; [lazy; reflexivity|].
  split; [lazy; reflexivity|]. repeat split.
Qed.

(** ** Degraded contexts *)

Section DegradedFacts.

(** A failing first query leaves a fresh object with all five
    collections empty, and [initialize] itself never throws. *)
Lemma initialize_without_backend (backend : SimpleGit.Backend)
    (base : string) (e : Thrown) :
  SimpleGit.diffSummary backend base = Threw e ->
  Git.initialize backend base Git.new = Git.new.
Proof. apply initialize_no_summary. Qed.

(** A commit log that fails after the diff summary was served leaves
    the file lists and the diffs as the loop filled them. *)
Lemma initialize_without_log (backend : SimpleGit.Backend) (base : string)
    (files : list SimpleGit.DiffResultFile) (e : Thrown) :
  SimpleGit.diffSummary backend base = Returned files ->
  SimpleGit.log backend base = Threw e ->
  Git.initialize backend base Git.new = fold_left Git.visit files Git.new.
Proof.
  intros Hd Hl. unfold Git.initialize. rewrite Hd, Hl. reflexivity.
Qed.

(** Once the guarded block is entered, [github] is never left
    undefined, whether [initialize] succeeded or not. *)
Lemma tryInitialize_present (host : Host) :
  Index.tryInitialize host <> None.
Proof.
  unfold Index.tryInitialize.
  destruct (GitHub.initialize _ _ _ _) as [obj [u|e]]; discriminate.
Qed.

End DegradedFacts.

(** C4, evaluated where the code departs from it. The diff summary of
  the first scenario is served but the commit log fails, and the run
  is a GitHub Actions pull-request run whose API is unreachable. The
  evaluation completes, yet the change set is not empty (the three
  file lists and [diffs] stay filled, only [commits] is empty), and the
  [github] field is not absent: it holds the object as [new GitHub()]
  made it, whose [pr] is undefined, so that [titleMatches] on it
  throws. *)
Theorem C4_degraded_context_at_failure :
let host :=
  Sample.host ["/repo/reviewfile.ts"%string] Sample.logFailsGit
    Sample.actionsEnv Sample.quiet in
let review := Index.createReviewContext host None None None in
Git.created_files (Dsl.git review) = ["a.ts"%string]
/\ Git.modified_files (Dsl.git review) = ["c.ts"%string]
/\ Git.deleted_files (Dsl.git review) = ["b.ts"%string]
/\ Git.diffs (Dsl.git review) = map Git.toDiff Sample.threeFiles
/\ Git.commits (Dsl.git review) = []
/\ snd (GitHub.initialize (process_env host) (octokit host)
          (errorStack host) GitHub.new)
   = Threw (ErrorObject "HttpError: Not Found" None)
/\ Dsl.github review = Some GitHub.new
/\ GitHub.pr GitHub.new = None
/\ (exists e,
      GitHub.titleMatches (errorStack host) GitHub.new
        (GitHub.Literal "feat") = Threw e)
/\ exists (r : Evaluator.EvaluationResult) (h' : Dsl.Heap),
     Evaluator.runReview host Sample.defaultOptions Sample.freshHeap
     = (h', Returned r)
     /\ Dsl.github (Evaluator.review r) = Some GitHub.new
     /\ Git.created_files (Dsl.git (Evaluator.review r)) = ["a.ts"%string]
     /\ Git.commits (Dsl.git (Evaluator.review r)) = [].
Proof.
intros host review.
repeat (split; [reflexivity|]). split.
- eexists. reflexivity.
- eexists. eexists. split; [lazy; reflexivity|]. repeat split.
Qed.

(** Witness of C3: a failure between a message and a warning; a message
  and a warning alone; and the verdict of a run whose reviewfile
  fails and throws. *)
Lemma C3_verdict_and_exit_code_witness :
Results.getExitCode
  (Results.calls
     [Results.CallAddMessage "m" None None;
      Results.CallAddFailure "f" None None;
      Results.CallAddWarning "w" None None] Results.empty) = 1%Z
/\ Results.getExitCode
     (Results.calls
        [Results.CallAddMessage "m" None None;
         Results.CallAddWarning "w" None None] Results.empty) = 0%Z
/\ exists (r : Evaluator.EvaluationResult) (h' : Dsl.Heap),
     Evaluator.runReview
       (Sample.host ["/repo/reviewfile.ts"%string] Sample.healthyGit
          Sample.noEnv Sample.failThenThrow)
       Sample.defaultOptions Sample.freshHeap = (h', Returned r)
     /\ Evaluator.exitCode r = (if Evaluator.passed r then 0 else 1)%Z.
Proof.
split; [|split].
- apply (C3_verdict_and_exit_code Results.empty
           [Results.CallAddMessage "m" None None;
            Results.CallAddFailure "f" None None;
            Results.CallAddWarning "w" None None]).
  reflexivity.
- destruct (C3_verdict_and_exit_code Results.empty
              [Results.CallAddMessage "m" None None;
               Results.CallAddWarning "w" None None])
    as (_ & _ & _ & Hquiet & _).
  destruct (Hquiet eq_refl) as [-> _]. reflexivity.
- destruct (C3_verdict_and_exit_code Results.empty [])
    as (_ & _ & _ & _ & Hrun).
  pose (host := Sample.host ["/repo/reviewfile.ts"%string]
                  Sample.healthyGit Sample.noEnv Sample.failThenThrow).
  assert (Hex : exists r h',
    Evaluator.runReview host Sample.defaultOptions Sample.freshHeap
    = (h', Returned r)).
  { eexists. eexists. lazy. reflexivity. }
  destruct Hex as (r & h' & Hev).
  exists r, h'. split; [exact Hev|].
  apply (Hrun host (Evaluator.new host Sample.defaultOptions)
           Sample.freshHeap h' r Hev).
Defined.

(** * Further properties of the code *)

(** ** Substrings *)

Section SubstringFacts.

Local Open Scope string_scope.

Lemma prefix_split (a s : string) :
  String.prefix a s = true <-> exists b, s = a ++ b.
Proof.
  split.
  - revert s. induction a as [|c a IH]; intros s H.
    + exists s. reflexivity.
    + destruct s as [|d s]; simpl in H; [discriminate|].
      destruct (ascii_dec c d) as [<-|]; [|discriminate].
      destruct (IH s H) as [b ->]. exists b. reflexivity.
  - intros [b ->]. apply prefix_append.
Qed.

(** [includes] is the substring relation. *)
Lemma includes_split (needle hay : string) :
  includes needle hay = true <-> exists a b, hay = a ++ needle ++ b.
Proof.
  split.
  - induction hay as [|c hay IH]; cbn [includes]; intros H.
    + rewrite orb_false_r in H. apply prefix_split in H.
      destruct H as [b Hb]. exists EmptyString, b. exact Hb.
    + apply orb_true_iff in H. destruct H as [H|H].
      * apply prefix_split in H. destruct H as [b Hb].
        exists EmptyString, b. exact Hb.
      * destruct (IH H) as (a & b & ->). exists (String c a), b.
        reflexivity.
  - intros (a & b & ->). apply includes_append.
Qed.

Lemma includes_within (needle s before rest : string) :
  includes needle s = true ->
  includes needle (before ++ s ++ rest) = true.
Proof.
  intros H. apply includes_split in H. destruct H as (a & b & ->).
  apply includes_split. exists (before ++ a), (b ++ rest).
  rewrite !append_associative. reflexivity.
Qed.

Lemma includes_self (s : string) : includes s s = true.
Proof.
  apply includes_split. exists EmptyString, EmptyString.
  simpl. rewrite append_empty. reflexivity.
Qed.

(** A substring of an element of a joined list is a substring of the
    join. *)
Lemma includes_concat (needle sep s : string) (l : list string) :
  In s l -> includes needle s = true ->
  includes needle (String.concat sep l) = true.
Proof.
  intros Hin Hs. induction l as [|x l IH]; [contradiction|].
  destruct l as [|y l].
  - destruct Hin as [->|[]]. exact Hs.
  - change (String.concat sep (x :: y :: l))
      with (x ++ sep ++ String.concat sep (y :: l)).
    destruct Hin as [->|Hin].
    + apply (includes_within needle s EmptyString), Hs.
    + rewrite <- append_associative.
      rewrite <- (append_empty (String.concat sep (y :: l))).
      apply includes_within, IH, Hin.
Qed.

End SubstringFacts.

(** ** The summary and the markdown report *)

Section RenderFacts.

Import Results Render.
Local Open Scope string_scope.

Lemma counted_part (n : nat) (kind : string) :
  includes "(s)" kind = true -> includes "(s)" (showLength n ++ kind) = true.
Proof.
  intros H. rewrite <- (append_empty kind). apply includes_within, H.
Qed.

Lemma concat_cons (sep x : string) (l : list string) :
  l <> [] -> String.concat sep (x :: l) = x ++ sep ++ String.concat sep l.
Proof. destruct l; [congruence | reflexivity]. Qed.

Lemma in_findingsBlock (heading : string) (rs : list ReviewResult)
    (r : ReviewResult) :
  In r rs -> In (bullet r) (findingsBlock heading rs).
Proof.
  intros Hin. unfold findingsBlock. destruct rs as [|x rs]; [contradiction|].
  cbn [List.length Nat.ltb Nat.leb]. apply in_or_app. right.
  apply in_or_app. left. apply in_map, Hin.
Qed.

Lemma includes_message_bullet (r : ReviewResult) :
  includes (message r) (bullet r) = true.
Proof. unfold bullet. apply includes_append. Qed.

End RenderFacts.

(** X1. [formatSummary()] answers "No issues found" exactly when no
    message, warning or failure is recorded; markdown blocks do not
    count. Otherwise it names the counts. *)
Theorem X1_summary_no_issues :
  forall c : Results.ResultsCollector,
    Render.formatSummary c = "No issues found"%string
    <-> Results.getTotalCount c = 0.
Proof.
  intros c. unfold Render.formatSummary, Results.getTotalCount.
  assert (Hno : forall l : list string,
             includes "(s)" (String.concat ", " l) = true ->
             String.concat ", " l = "No issues found"%string -> False).
  { intros l Hin Heq. rewrite Heq in Hin. discriminate Hin. }
  assert (Hpart : forall n kind rest,
             includes "(s)" kind = true ->
             includes "(s)"
               (String.concat ", " ((Render.showLength n ++ kind)%string :: rest))
             = true).
  { intros n kind rest Hk.
    apply (includes_concat _ _ (Render.showLength n ++ kind)%string);
      [left; reflexivity | apply counted_part, Hk]. }
  destruct (Nat.ltb_spec 0 (List.length (Results.failures c))) as [Hf|Hf];
    destruct (Nat.ltb_spec 0 (List.length (Results.warnings c))) as [Hw|Hw];
    destruct (Nat.ltb_spec 0 (List.length (Results.messages c))) as [Hm|Hm];
    cbn [app List.length Nat.ltb Nat.leb].
  all: try (split; [intros H; exfalso; revert H; apply Hno, Hpart; reflexivity
                   | intros H; exfalso; lia]).
  split; [intros _; lia | reflexivity].
Qed.

(** X2. Nothing reported is lost in the markdown report: the report
    contains the bullet, hence the text, of every failure, warning and
    message, and every markdown block. *)
Theorem X2_markdown_keeps_findings :
  forall (c : Results.ResultsCollector),
    (forall r : Results.ReviewResult,
        In r (Results.failures c ++ Results.warnings c ++ Results.messages c) ->
        includes (Render.bullet r) (Render.formatAsMarkdown c) = true
        /\ includes (Results.message r) (Render.formatAsMarkdown c) = true)
    /\ (forall md : string,
          In md (Results.markdowns c) ->
          includes md (Render.formatAsMarkdown c) = true).
Proof.
  intros c. split.
  - intros r Hin.
    assert (Hb : In (Render.bullet r) (Render.markdownOutput c)).
    { unfold Render.markdownOutput. rewrite !in_app_iff in Hin.
      rewrite !in_app_iff. right. right.
      destruct Hin as [H|[H|H]];
        [left | right; left | right; right; left];
        apply in_findingsBlock, H. }
    split.
    + apply (includes_concat _ _ (Render.bullet r)); [exact Hb|].
      apply includes_self.
    + apply (includes_concat _ _ (Render.bullet r)); [exact Hb|].
      apply includes_message_bullet.
  - intros md Hin.
    apply (includes_concat _ _
             (String.concat (nl ++ nl) (Results.markdowns c))).
    + unfold Render.markdownOutput. rewrite !in_app_iff.
      right. right. right. right. right. left.
      destruct (Results.markdowns c); [contradiction|].
      cbn [List.length Nat.ltb Nat.leb]. right. left. reflexivity.
    + apply (includes_concat _ _ md); [exact Hin | apply includes_self].
Qed.

(** X3. The markdown report opens with its title and, on the next line,
    a banner; the banner announces a failed review exactly when the exit
    code is 1. *)
Theorem X3_banner_agrees_with_exit_code :
  forall c : Results.ResultsCollector,
    (exists rest : string,
        Render.formatAsMarkdown c
        = (("## 🤖 Code Review Results" ++ nl) ++ nl
           ++ Render.banner c ++ nl ++ rest)%string)
    /\ (String.prefix "❌ **Review Failed:** " (Render.banner c) = true
        <-> Results.getExitCode c = 1%Z).
Proof.
  intros c. split.
  - unfold Render.formatAsMarkdown, Render.markdownOutput.
    eexists. cbn [app].
    rewrite concat_cons by discriminate.
    rewrite concat_cons; [reflexivity|].
    intros H. apply app_eq_nil in H. destruct H as [_ H].
    apply app_eq_nil in H. destruct H as [_ H].
    apply app_eq_nil in H. destruct H as [_ H].
    apply app_eq_nil in H. destruct H as [_ H]. discriminate H.
  - unfold Render.banner, Results.getExitCode.
    destruct (Results.hasFailures c).
    + split; [reflexivity|]. intros _. apply prefix_append.
    + destruct (Results.hasWarnings c); split; discriminate.
Qed.

(** X4. Across any sequence of append calls the total count grows by
    the number of message, warning and failure calls; markdown blocks
    are never counted. *)
Theorem X4_total_count_of_calls :
  forall (ks : list Results.Call) (c : Results.ResultsCollector),
    Results.getTotalCount (Results.calls ks c)
    = Results.getTotalCount c
      + List.length
          (filter (fun k => match k with
                            | Results.CallAddMarkdown _ => false
                            | _ => true
                            end) ks).
Proof.
  induction ks as [|k ks IH]; intros c; simpl; [lia|].
  change (fold_left (fun acc k0 => Results.call k0 acc) ks (Results.call k c))
    with (Results.calls ks (Results.call k c)).
  rewrite IH. unfold Results.getTotalCount.
  destruct k; simpl; rewrite ?length_app; simpl; lia.
Qed.

(** ** Loading the reviewfile *)

Section LoaderFacts.

Import Dsl.
Local Open Scope string_scope.

Variable host : Host.

Lemma loadReviewFile_cases {S : Type} (filePath : string) (s : S) :
  Loader.loadReviewFile host filePath s =
    match import host filePath with
    | Returned (Callable f) => (s, Returned f)
    | Returned NotCallable =>
        (s, Threw (ErrorObject Loader.notExportingFunction
                     (Some (errorStack host Loader.notExportingFunction))))
    | Threw e => Loader.rethrow host filePath e s
    end.
Proof.
  unfold Loader.loadReviewFile, tryCatch, bind, perform.
  destruct (import host filePath) as [[|f]|e]; reflexivity.
Qed.

Lemma rethrow_throws_error {S : Type} (filePath : string) (e : Thrown)
    (s : S) :
  exists m st, Loader.rethrow host filePath e s = (s, Threw (ErrorObject m st)).
Proof.
  unfold Loader.rethrow, newError, throw.
  destruct e as [m st|m st v|raised].
  - destruct (includes "Cannot find module" m); [eauto|].
    destruct (includes "Unexpected token" m); eauto.
  - eauto.
  - eauto.
Qed.

End LoaderFacts.

(** X5. [loadReviewFile] returns a function exactly when the imported
    module has a callable default export, and then returns that export.
    Otherwise it throws, always an [Error] object: a module of the wrong
    shape gives the export hint as it is (the catch block does not wrap
    it), and a thrown value that is not an [Error] is replaced by one. *)
Theorem X5_loadReviewFile_outcomes :
  forall (host : Host) (filePath : string) (h : Dsl.Heap),
    (forall f h',
        Loader.loadReviewFile host filePath h = (h', Returned f)
        <-> h' = h /\ import host filePath = Returned (Callable f))
    /\ (forall e h',
          Loader.loadReviewFile host filePath h = (h', Threw e) ->
          h' = h /\ exists m st, e = ErrorObject m st)
    /\ (import host filePath = Returned NotCallable ->
        snd (Loader.loadReviewFile host filePath h)
        = Threw (ErrorObject Loader.notExportingFunction
                   (Some (errorStack host Loader.notExportingFunction)))).
Proof.
  intros host filePath h. rewrite loadReviewFile_cases.
  split; [|split].
  - intros f h'. destruct (import host filePath) as [[|g]|e].
    + split; [discriminate | intros [_ H]; discriminate].
    + split; intros H.
      * inversion H; subst. auto.
      * destruct H as [-> H]. inversion H; subst. reflexivity.
    + destruct (rethrow_throws_error host filePath e h) as (m & st & ->).
      split; [discriminate | intros [_ H]; discriminate].
  - intros e h'. destruct (import host filePath) as [[|g]|e0].
    + intros H. inversion H; subst. eauto.
    + discriminate.
    + destruct (rethrow_throws_error host filePath e0 h) as (m & st & ->).
      intros H. inversion H; subst. eauto.
  - intros ->. reflexivity.
Qed.

(** Witness of X5: a module without a callable default. *)
Lemma X5_loadReviewFile_outcomes_witness :
  exists m st,
    snd (Loader.loadReviewFile
           (mkHost "/repo" Sample.noEnv (fun _ => true) (fun _ => true)
              (String.prefix "/") String.append String.append
              (fun m => m) (fun _ => Sample.noGit) Sample.unreachableApi
              (fun _ => Returned NotCallable))
           "/repo/reviewfile.ts" Sample.freshHeap)
    = Threw (ErrorObject m st).
Proof.
  pose (host := mkHost "/repo" Sample.noEnv (fun _ => true) (fun _ => true)
                  (String.prefix "/") String.append String.append
                  (fun m => m) (fun _ => Sample.noGit) Sample.unreachableApi
                  (fun _ => Returned NotCallable)).
  destruct (X5_loadReviewFile_outcomes host "/repo/reviewfile.ts"%string
              Sample.freshHeap) as (_ & _ & Hshape).
  eexists. eexists. fold host. rewrite (Hshape eq_refl). reflexivity.
Defined.

(** ** Infrastructure failures of the evaluator *)

Section InfrastructureFacts.

Import Dsl Evaluator.

Variable host : Host.
Variable this : Options.

Let target : CollectorRef := opt_resultsCollector this.
Let located : Loader.ReviewFileInfo :=
  Loader.findReviewFile host (Some (opt_reviewFilePath this))
    (Some (opt_projectRoot this)).
Let context : ReviewDSL :=
  Index.createReviewContext host (Some (opt_baseBranch this))
    (Some (opt_enableGitHub this)) (Some (opt_projectRoot this)).

(** [evaluate], step by step: the collector is reset, then the located
    file is validated and loaded, and only then the reviewfile runs. *)
Lemma evaluate_cases (h : Heap) :
  evaluate host this h =
    let h0 := on target Results.reset h in
    match Loader.validateReviewFile host located h0 with
    | (_, Threw e) => (h0, Threw e)
    | (_, Returned _) =>
        match Loader.loadReviewFile host (Loader.absolutePath located) h0 with
        | (_, Threw e) => (h0, Threw e)
        | (_, Returned f) =>
            match executeReviewFile this f context h0 with
            | (h', Returned _) =>
                (h', Returned
                       {| review := context;
                          results := target;
                          reviewFile := located;
                          passed :=
                            negb (Results.hasFailures (deref target h'));
                          exitCode :=
                            Results.getExitCode (deref target h') |})
            | (h', Threw e) => (h', Threw e)
            end
        end
    end.
Proof.
  cbv zeta. unfold evaluate. fold target located context.
  unfold bind at 1. unfold update at 1. unfold bind at 1.
  pose proof (validateReviewFile_heap host located
                (on target Results.reset h)) as Hv.
  destruct (Loader.validateReviewFile host located _) as [h1 [[]|e]];
    simpl in Hv; subst h1; [|reflexivity].
  unfold bind at 1.
  pose proof (loadReviewFile_heap host (Loader.absolutePath located)
                (on target Results.reset h)) as Hl.
  destruct (Loader.loadReviewFile host _ _) as [h2 [f|e]];
    simpl in Hl; subst h2; [|reflexivity].
  unfold bind at 1.
  destruct (executeReviewFile this f context (on target Results.reset h))
    as [h3 [[]|e]]; reflexivity.
Qed.

End InfrastructureFacts.

(** X6. [evaluate] returns a result only when the located reviewfile
    exists, is readable and its module has a callable default export:
    with a missing, unreadable or wrongly shaped reviewfile it always
    throws, whatever else holds. *)
Theorem X6_evaluate_returns_only_if :
  forall (host : Host) (this : Evaluator.Options) (h : Dsl.Heap),
    let located :=
      Loader.findReviewFile host (Some (Evaluator.opt_reviewFilePath this))
        (Some (Evaluator.opt_projectRoot this)) in
    (exists r h', Evaluator.evaluate host this h = (h', Returned r)) ->
    Loader.exists_ located = true
    /\ readable host (Loader.absolutePath located) = true
    /\ exists f,
         import host (Loader.absolutePath located) = Returned (Callable f).
Proof.
  intros host this h located. rewrite evaluate_cases. fold located. cbv zeta.
  unfold Loader.validateReviewFile, newError, throw, ret.
  rewrite loadReviewFile_cases.
  destruct (Loader.exists_ located); simpl negb; cbv iota.
  2: { intros (r & h' & H); discriminate H. }
  destruct (readable host (Loader.absolutePath located)).
  2: { intros (r & h' & H); discriminate H. }
  destruct (import host (Loader.absolutePath located)) as [[|f]|e].
  - intros (r & h' & H); discriminate H.
  - intros _. split; [reflexivity|]. split; [reflexivity|].
    exists f. reflexivity.
  - destruct (rethrow_throws_error host (Loader.absolutePath located) e
                (Dsl.on (Evaluator.opt_resultsCollector this)
                   Results.reset h)) as (m & st & ->).
    intros (r & h' & H); discriminate H.
Qed.

(** Witness of X6: a run that returns, in a project that holds
    [reviewfile.ts]. *)
Lemma X6_evaluate_returns_only_if_witness :
  Loader.exists_
    (Loader.findReviewFile
       (Sample.host ["/repo/reviewfile.ts"%string] Sample.healthyGit
          Sample.noEnv Sample.quiet)
       (Some EmptyString) (Some "/repo"%string)) = true.
Proof.
  pose (host := Sample.host ["/repo/reviewfile.ts"%string] Sample.healthyGit
                  Sample.noEnv Sample.quiet).
  assert (Hex : exists r h',
    Evaluator.evaluate host (Evaluator.new host Sample.defaultOptions)
      Sample.freshHeap = (h', Returned r)).
  { eexists. eexists. lazy. reflexivity. }
  destruct (X6_evaluate_returns_only_if host
              (Evaluator.new host Sample.defaultOptions) Sample.freshHeap Hex)
    as (Hexists & _ & _).
  exact Hexists.
Defined.

(** X7. When the located reviewfile does not exist or is not readable,
    [evaluate] throws an [Error] before anything else happens: the
    evaluator's collector has been reset and holds no finding, and the
    other collector is as it was. *)
Theorem X7_evaluate_failure_state :
  forall (host : Host) (this : Evaluator.Options) (h : Dsl.Heap),
    let located :=
      Loader.findReviewFile host (Some (Evaluator.opt_reviewFilePath this))
        (Some (Evaluator.opt_projectRoot this)) in
    let target := Evaluator.opt_resultsCollector this in
    Loader.exists_ located = false
    \/ readable host (Loader.absolutePath located) = false ->
    exists m st,
      Evaluator.evaluate host this h
      = (Dsl.on target Results.reset h, Threw (ErrorObject m st))
      /\ Dsl.deref target (Dsl.on target Results.reset h) = Results.empty
      /\ (forall other,
            other <> target ->
            Dsl.deref other (Dsl.on target Results.reset h)
            = Dsl.deref other h).
Proof.
  intros host this h located target Hbad.
  rewrite evaluate_cases. fold located target. cbv zeta.
  unfold Loader.validateReviewFile, newError, throw, ret.
  assert (Hstate :
    Dsl.deref target (Dsl.on target Results.reset h) = Results.empty
    /\ (forall other,
          other <> target ->
          Dsl.deref other (Dsl.on target Results.reset h)
          = Dsl.deref other h)).
  { split; [rewrite deref_on_same; reflexivity|].
    intros other Hne. destruct other, target; try reflexivity;
      exfalso; apply Hne; reflexivity. }
  destruct (Loader.exists_ located) eqn:He; cbn [negb].
  - destruct Hbad as [Hbad|Hbad]; [discriminate|]. rewrite Hbad.
    eexists. eexists. split; [reflexivity | exact Hstate].
  - eexists. eexists. split; [reflexivity | exact Hstate].
Qed.

(** Witness of X7: an empty project, and findings left by an earlier
    run in the global collector. *)
Lemma X7_evaluate_failure_state_witness :
  exists h' e,
    Evaluator.runReview
      (Sample.host [] Sample.healthyGit Sample.noEnv Sample.failThenThrow)
      Sample.defaultOptions
      (Dsl.mkHeap (Results.addFailure "old" None None Results.empty)
         Results.empty)
    = (h', Threw e)
    /\ Dsl.globalResultsCollector h' = Results.empty.
Proof.
  pose (host := Sample.host [] Sample.healthyGit Sample.noEnv
                  Sample.failThenThrow).
  pose (h := Dsl.mkHeap (Results.addFailure "old" None None Results.empty)
               Results.empty).
  destruct (X7_evaluate_failure_state host
              (Evaluator.new host Sample.defaultOptions) h
              (or_introl eq_refl))
    as (m & st & Hev & Hempty & _).
  eexists. eexists. split; [exact Hev | exact Hempty].
Defined.

(** ** Reviewfiles that only report *)

Section ScriptFacts.

Import Dsl.

Lemma on_global_id (h : Heap) :
  on TheGlobalCollector (Results.calls []) h = h.
Proof. destruct h; reflexivity. Qed.

Lemma reports_run (ks : list Results.Call) (h : Heap) :
  Script.reports ks h
  = (on TheGlobalCollector (Results.calls ks) h, Returned tt).
Proof.
  revert h. induction ks as [|k ks IH]; intros h.
  - simpl Script.reports. unfold ret. rewrite on_global_id. reflexivity.
  - simpl Script.reports. unfold bind.
    assert (Hk : Script.report k h
                 = (on TheGlobalCollector (Results.call k) h, Returned tt)).
    { destruct k; reflexivity. }
    rewrite Hk, IH. reflexivity.
Qed.

Lemma hasFailures_of_calls (ks : list Results.Call) :
  Results.hasFailures (Results.calls ks Results.empty)
  = existsb Results.isAddFailure ks.
Proof.
  destruct (existsb Results.isAddFailure ks) eqn:Hk.
  - apply hasFailures_after_failure, Hk.
  - unfold Results.hasFailures.
    rewrite (failures_without_failure ks _ Hk). reflexivity.
Qed.

End ScriptFacts.

(** X8. With the default collector, the result of evaluating a
    reviewfile that only reports holds exactly what this run reported,
    whatever the global collector held before (findings of an earlier
    run do not leak); the review passes exactly when no [fail] call was
    made, and the exit code is 0 or 1 accordingly. *)
Theorem X8_default_collector_run :
  forall (host : Host) (this : Evaluator.Options)
         (ks : list Results.Call) (h : Dsl.Heap),
    let located :=
      Loader.findReviewFile host (Some (Evaluator.opt_reviewFilePath this))
        (Some (Evaluator.opt_projectRoot this)) in
    Evaluator.opt_resultsCollector this = Dsl.TheGlobalCollector ->
    Loader.exists_ located = true ->
    readable host (Loader.absolutePath located) = true ->
    import host (Loader.absolutePath located)
      = Returned (Callable (Script.reviewfile ks)) ->
    exists r h',
      Evaluator.evaluate host this h = (h', Returned r)
      /\ Dsl.deref (Evaluator.results r) h' = Results.calls ks Results.empty
      /\ Dsl.ownCollector h' = Dsl.ownCollector h
      /\ Evaluator.passed r = negb (existsb Results.isAddFailure ks)
      /\ Evaluator.exitCode r
         = (if existsb Results.isAddFailure ks then 1 else 0)%Z.
Proof.
  intros host this ks h located Ht He Hr Hi.
  pose proof (evaluate_after_loading host this _ h He Hr Hi) as Hev.
  rewrite executeReviewFile_cases in Hev.
  unfold Script.reviewfile in Hev. rewrite reports_run in Hev.
  rewrite Ht in Hev. cbv iota in Hev.
  eexists. eexists. split; [exact Hev|].
  cbn [Evaluator.results Evaluator.passed Evaluator.exitCode Dsl.deref].
  destruct h as [g o]. cbn [Dsl.on Dsl.globalResultsCollector Dsl.ownCollector].
  change (Results.reset g) with Results.empty.
  unfold Results.getExitCode. rewrite hasFailures_of_calls.
  repeat split.
Qed.

(** Witness of X8: a warning and a failure, after an earlier run left a
    message behind. *)
Lemma X8_default_collector_run_witness :
  exists r h',
    Evaluator.runReview
      (Sample.host ["/repo/reviewfile.ts"%string] Sample.healthyGit
         Sample.noEnv
         (Script.reviewfile [Results.CallAddWarning "w" None None;
                             Results.CallAddFailure "f" None None]))
      Sample.defaultOptions
      (Dsl.mkHeap (Results.addMessage "old" None None Results.empty)
         Results.empty)
    = (h', Returned r)
    /\ Results.messages (Dsl.deref (Evaluator.results r) h') = []
    /\ Evaluator.exitCode r = 1%Z.
Proof.
  pose (ks := [Results.CallAddWarning "w" None None;
               Results.CallAddFailure "f" None None]).
  pose (host := Sample.host ["/repo/reviewfile.ts"%string] Sample.healthyGit
                  Sample.noEnv (Script.reviewfile ks)).
  destruct (X8_default_collector_run host
              (Evaluator.new host Sample.defaultOptions) ks
              (Dsl.mkHeap (Results.addMessage "old" None None Results.empty)
                 Results.empty)
              eq_refl eq_refl eq_refl eq_refl)
    as (r & h' & Hev & Hres & _ & _ & Hx).
  exists r, h'. split; [exact Hev|]. split; [|exact Hx].
  rewrite Hres. reflexivity.
Defined.

(** X9. With a collector of the caller's own, the reporting functions
    still write to the global collector, which is not reset: the result
    of a reviewfile that only reports holds no finding, passes and has
    exit code 0 even when [fail] was called, and what was reported is
    appended to whatever the global collector held before. *)
Theorem X9_own_collector_run :
  forall (host : Host) (this : Evaluator.Options)
         (ks : list Results.Call) (h : Dsl.Heap),
    let located :=
      Loader.findReviewFile host (Some (Evaluator.opt_reviewFilePath this))
        (Some (Evaluator.opt_projectRoot this)) in
    Evaluator.opt_resultsCollector this = Dsl.AnOwnCollector ->
    Loader.exists_ located = true ->
    readable host (Loader.absolutePath located) = true ->
    import host (Loader.absolutePath located)
      = Returned (Callable (Script.reviewfile ks)) ->
    exists r h',
      Evaluator.evaluate host this h = (h', Returned r)
      /\ Dsl.deref (Evaluator.results r) h' = Results.empty
      /\ Evaluator.passed r = true
      /\ Evaluator.exitCode r = 0%Z
      /\ Dsl.globalResultsCollector h'
         = Results.calls ks (Dsl.globalResultsCollector h).
Proof.
  intros host this ks h located Ht He Hr Hi.
  pose proof (evaluate_after_loading host this _ h He Hr Hi) as Hev.
  rewrite executeReviewFile_cases in Hev.
  unfold Script.reviewfile in Hev. rewrite reports_run in Hev.
  rewrite Ht in Hev. cbv iota in Hev.
  eexists. eexists. split; [exact Hev|].
  destruct h as [g o]. repeat split.
Qed.

(** Witness of X9: the same reviewfile, evaluated with a collector of
    the caller's own. *)
Lemma X9_own_collector_run_witness :
  exists r h',
    Evaluator.runReview
      (Sample.host ["/repo/reviewfile.ts"%string] Sample.healthyGit
         Sample.noEnv
         (Script.reviewfile [Results.CallAddFailure "f" None None]))
      Sample.ownCollectorOptions Sample.freshHeap
    = (h', Returned r)
    /\ Evaluator.passed r = true.
Proof.
  pose (ks := [Results.CallAddFailure "f" None None]).
  pose (host := Sample.host ["/repo/reviewfile.ts"%string] Sample.healthyGit
                  Sample.noEnv (Script.reviewfile ks)).
  destruct (X9_own_collector_run host
              (Evaluator.new host Sample.ownCollectorOptions) ks
              Sample.freshHeap eq_refl eq_refl eq_refl eq_refl)
    as (r & h' & Hev & _ & Hp & _).
  exists r, h'. split; [exact Hev | exact Hp].
Defined.

(** ** Locating an explicit reviewfile *)

Section ExplicitPathFacts.

Local Open Scope string_scope.

Lemma orElse_nonempty (p dflt : string) :
  p <> EmptyString -> orElse (Some p) dflt = p.
Proof.
  intros Hp. unfold orElse. apply String.eqb_neq in Hp. rewrite Hp.
  reflexivity.
Qed.

Lemma truthy_nonempty (p : string) :
  p <> EmptyString -> truthy (Some p) = true.
Proof.
  intros Hp. unfold truthy. apply String.eqb_neq in Hp. rewrite Hp.
  reflexivity.
Qed.

(** What [probe] answers is a candidate that exists. *)
Lemma probe_sound (host : Host) (root : string) (exts : list string)
    (info : Loader.ReviewFileInfo) :
  Loader.probe host root exts = Some info ->
  Loader.exists_ info = true
  /\ existsSync host (Loader.absolutePath info) = true
  /\ exists ext, In ext exts
       /\ Loader.path info = Loader.baseName ++ ext
       /\ Loader.absolutePath info
          = path_join host root (Loader.baseName ++ ext).
Proof.
  induction exts as [|ext exts IH]; cbn [Loader.probe]; [discriminate|].
  destruct (existsSync host (path_join host root (Loader.baseName ++ ext)))
    eqn:He.
  - intros H. inversion H; subst; clear H. cbn.
    split; [reflexivity|]. split; [exact He|].
    exists ext. split; [left; reflexivity|]. split; reflexivity.
  - intros H. destruct (IH H) as (H1 & H2 & ext' & Hin & Hp & Ha).
    split; [exact H1|]. split; [exact H2|].
    exists ext'. split; [right; exact Hin|]. split; assumption.
Qed.

Lemma probe_none_inv (host : Host) (root : string) (exts : list string) :
  Loader.probe host root exts = None ->
  forall ext, In ext exts ->
    existsSync host (path_join host root (Loader.baseName ++ ext)) = false.
Proof.
  induction exts as [|e exts IH]; cbn [Loader.probe]; [contradiction|].
  destruct (existsSync host (path_join host root (Loader.baseName ++ e)))
    eqn:He; [discriminate|].
  intros H ext [<-|Hin]; [exact He | apply IH; assumption].
Qed.

End ExplicitPathFacts.

(** X10. The [exists] flag of [findReviewFile] is truthful for every
    input: it is what [fs.existsSync] says of the absolute path that is
    returned, with or without an explicit path, also for the default
    [reviewfile.ts] returned when nothing was found. *)
Theorem X10_exists_flag_truthful :
  forall (host : Host) (providedPath projectRoot : option string),
    let found := Loader.findReviewFile host providedPath projectRoot in
    Loader.exists_ found = existsSync host (Loader.absolutePath found).
Proof.
  intros host providedPath projectRoot found. subst found.
  unfold Loader.findReviewFile.
  destruct (truthy providedPath); [reflexivity|].
  match goal with
  | |- context [Loader.probe host ?root ?exts] =>
      destruct (Loader.probe host root exts) as [info|] eqn:Hp
  end.
  - destruct (probe_sound _ _ _ _ Hp) as (H1 & H2 & _). congruence.
  - cbn [Loader.exists_ Loader.absolutePath]. symmetry.
    apply (probe_none_inv _ _ _ Hp ".ts"%string). left. reflexivity.
Qed.

(** X11. An explicit path is taken as it is, never replaced by a
    default: when the file it names does not exist, [runReview] throws
    "Reviewfile not found: " followed by that very path, even if a
    default reviewfile exists, and the evaluator's collector is left
    reset. *)
Theorem X11_explicit_path_missing :
  forall (host : Host) (options : Evaluator.EvaluatorOptions)
         (h : Dsl.Heap) (p : string),
    let root := orElse (Evaluator.projectRoot options) (cwd host) in
    let absolutePath :=
      if path_isAbsolute host p then p else path_resolve host root p in
    let target :=
      match Evaluator.resultsCollector options with
      | Some c => c
      | None => Dsl.TheGlobalCollector
      end in
    Evaluator.reviewFilePath options = Some p ->
    p <> EmptyString ->
    existsSync host absolutePath = false ->
    exists m st,
      Evaluator.runReview host options h
      = (Dsl.on target Results.reset h, Threw (ErrorObject m st))
      /\ String.prefix ("Reviewfile not found: " ++ p)%string m = true.
Proof.
  intros host options h p root absolutePath target Hp Hne Hex.
  unfold Evaluator.runReview. rewrite evaluate_cases. cbv zeta.
  unfold Evaluator.new. cbn [Evaluator.opt_reviewFilePath
    Evaluator.opt_projectRoot Evaluator.opt_resultsCollector].
  rewrite Hp, (orElse_nonempty _ _ Hne). fold root target.
  unfold Loader.findReviewFile. rewrite (truthy_nonempty _ Hne).
  cbn [interpolate]. fold absolutePath.
  unfold Loader.validateReviewFile. cbn [Loader.exists_]. rewrite Hex.
  cbn [negb]. unfold newError, throw.
  eexists. eexists. split; [reflexivity|].
  unfold Loader.notFound. cbn [Loader.path].
  rewrite <- append_associative. apply prefix_append.
Qed.

(** Witness of X11: [./missing.ts] is asked for in a project that holds
    [reviewfile.ts]. *)
Lemma X11_explicit_path_missing_witness :
  exists m st h',
    Evaluator.runReview
      (Sample.host ["/repo/reviewfile.ts"%string] Sample.healthyGit
         Sample.noEnv Sample.quiet)
      (Evaluator.mkEvaluatorOptions (Some "./missing.ts"%string) None None
         None None)
      Sample.freshHeap
    = (h', Threw (ErrorObject m st))
    /\ String.prefix "Reviewfile not found: ./missing.ts" m = true.
Proof.
  destruct (X11_explicit_path_missing
              (Sample.host ["/repo/reviewfile.ts"%string] Sample.healthyGit
                 Sample.noEnv Sample.quiet)
              (Evaluator.mkEvaluatorOptions (Some "./missing.ts"%string)
                 None None None None)
              Sample.freshHeap "./missing.ts"%string eq_refl)
    as (m & st & Hev & Hm).
  - discriminate.
  - reflexivity.
  - exists m, st. eexists. split; [exact Hev | exact Hm].
Defined.

(** ** The local command *)

Section LocalCommandFacts.

Local Open Scope string_scope.

Lemma orElse_default_nonempty (s : option string) (dflt : string) :
  dflt <> EmptyString -> orElse s dflt <> EmptyString.
Proof.
  intros Hd. unfold orElse. destruct s as [v|]; [|exact Hd].
  destruct (String.eqb_spec v EmptyString); assumption.
Qed.

End LocalCommandFacts.

(** X12. The local command exits with status 0 or 1. It exits with 0
    only when the reviewfile (the one asked for, [./reviewfile.ts] by
    default, looked up from the working directory) exists, is readable
    and exports a callable default, and the global collector ends
    without a failure: a missing, unreadable or wrongly shaped
    reviewfile, or a recorded failure, gives status 1. *)
Theorem X12_local_exit_status :
  forall (host : Host) (options : Commands.LocalOptions) (h : Dsl.Heap),
    let located :=
      Loader.findReviewFile host
        (Some (orElse (Commands.reviewfile options) "./reviewfile.ts"))
        (Some (cwd host)) in
    let out := Commands.localCommand host options h in
    (snd out = 0%Z \/ snd out = 1%Z)
    /\ (snd out = 0%Z ->
        (Loader.exists_ located = true
         /\ readable host (Loader.absolutePath located) = true
         /\ exists f,
              import host (Loader.absolutePath located)
              = Returned (Callable f))
        /\ Results.failures (Dsl.globalResultsCollector (fst out)) = []).
Proof.
  intros host options h located out. subst out.
  unfold Commands.localCommand. rewrite evaluate_cases. cbv zeta.
  unfold Evaluator.new. cbn [Evaluator.opt_reviewFilePath
    Evaluator.opt_projectRoot Evaluator.opt_resultsCollector
    Evaluator.reviewFilePath Evaluator.projectRoot
    Evaluator.resultsCollector].
  rewrite orElse_nonempty
    by (apply orElse_default_nonempty; discriminate).
  change (orElse None (cwd host)) with (cwd host). fold located.
  unfold Loader.validateReviewFile, newError, throw, ret.
  rewrite loadReviewFile_cases.
  destruct (Loader.exists_ located); cbn [negb].
  2: { cbn [snd]. split; [right; reflexivity | discriminate]. }
  destruct (readable host (Loader.absolutePath located)).
  2: { cbn [snd]. split; [right; reflexivity | discriminate]. }
  destruct (import host (Loader.absolutePath located)) as [[|f]|e].
  - cbn [snd]. split; [right; reflexivity | discriminate].
  - destruct (Evaluator.executeReviewFile _ f _ _) as [h3 [[]|e]].
    + cbn [snd fst Evaluator.exitCode Dsl.deref].
      unfold Results.getExitCode.
      pose proof (hasFailures_nonempty (Dsl.globalResultsCollector h3)) as Hf.
      destruct (Results.hasFailures (Dsl.globalResultsCollector h3)).
      * split; [right; reflexivity | discriminate].
      * split; [left; reflexivity|]. intros _. split.
        -- split; [reflexivity|]. split; [reflexivity|]. eauto.
        -- destruct (Results.failures (Dsl.globalResultsCollector h3))
             as [|x l]; [reflexivity|].
           exfalso. assert (false = true); [|discriminate].
           apply (proj2 Hf). discriminate.
    + cbn [snd]. split; [right; reflexivity | discriminate].
  - match goal with
    | |- context [Loader.rethrow host ?p e ?s] =>
        destruct (rethrow_throws_error host p e s) as (m & st & ->)
    end.
    cbn [snd]. split; [right; reflexivity | discriminate].
Qed.

(** Witness of X12: a reviewfile that reports nothing, found at the
    default path. *)
Lemma X12_local_exit_status_witness :
  Results.failures
    (Dsl.globalResultsCollector
       (fst (Commands.localCommand
               (Sample.host ["/repo/./reviewfile.ts"%string]
                  Sample.healthyGit Sample.noEnv Sample.quiet)
               (Commands.mkLocalOptions None None None) Sample.freshHeap)))
  = [].
Proof.
  destruct (X12_local_exit_status
              (Sample.host ["/repo/./reviewfile.ts"%string]
                 Sample.healthyGit Sample.noEnv Sample.quiet)
              (Commands.mkLocalOptions None None None) Sample.freshHeap)
    as [_ Hzero].
  apply Hzero. reflexivity.
Defined.

(** ** Invariants of the change set *)

Section ChangeSetFacts.

Import SimpleGit Git Classification.

Lemma nodup_map_filter {A B : Type} (key : A -> B) (keep : A -> bool)
    (l : list A) :
  NoDup (map key l) -> NoDup (map key (filter keep l)).
Proof.
  induction l as [|x l IH]; simpl; intros H; [constructor|].
  inversion H as [|? ? Hx Hl]; subst. destruct (keep x); simpl; auto.
  constructor; auto. intros Hin. apply Hx.
  apply in_map_iff in Hin. destruct Hin as (y & Hy & Hf).
  apply filter_In in Hf. rewrite <- Hy. apply in_map, Hf.
Qed.

Lemma pathsOf_nodup (kind : DiffResultFile -> bool)
    (files : list DiffResultFile) :
  NoDup (map SimpleGit.file (filter (fun f => negb (binary f)) files)) ->
  NoDup (pathsOf kind files).
Proof.
  intros H. unfold pathsOf.
  assert (Heq : filter (fun f => negb (binary f) && kind f) files
                = filter kind (filter (fun f => negb (binary f)) files)).
  { clear H. induction files as [|f files IH]; simpl; [reflexivity|].
    destruct (binary f); simpl; [exact IH|].
    destruct (kind f); simpl; congruence. }
  rewrite Heq. apply nodup_map_filter, H.
Qed.

Lemma pathsOf_disjoint (k1 k2 : DiffResultFile -> bool)
    (files : list DiffResultFile) :
  NoDup (map SimpleGit.file (filter (fun f => negb (binary f)) files)) ->
  (forall f, k1 f = true -> k2 f = false) ->
  forall path, In path (pathsOf k1 files) -> ~ In path (pathsOf k2 files).
Proof.
  intros Hnd Hex path H1 H2. apply in_pathsOf in H1.
  destruct H1 as (f & Hin & Hb & Hk & <-).
  assert (Hf : In f (filter (fun f => negb (binary f)) files)).
  { apply filter_In. rewrite Hb. auto. }
  apply (bucket_of_entry files Hnd k2 f Hf) in H2.
  rewrite (Hex f Hk) in H2. discriminate.
Qed.

(** Every non-binary entry is of exactly one of four kinds. *)
Lemma kind_of_entry (f : DiffResultFile) :
  let zero := ((insertions f =? 0)%N && (SimpleGit.deletions f =? 0)%N) in
  (isCreated f, isModified f, isDeleted f, zero) = (true, false, false, false)
  \/ (isCreated f, isModified f, isDeleted f, zero)
     = (false, true, false, false)
  \/ (isCreated f, isModified f, isDeleted f, zero)
     = (false, false, true, false)
  \/ (isCreated f, isModified f, isDeleted f, zero)
     = (false, false, false, true).
Proof.
  unfold isModified, isCreated, isDeleted. rewrite !N_pos_nonzero.
  destruct (insertions f =? 0)%N, (SimpleGit.deletions f =? 0)%N;
    simpl; auto.
Qed.

Lemma kinds_partition (files : list DiffResultFile) :
  List.length (pathsOf isCreated files)
  + List.length (pathsOf isModified files)
  + List.length (pathsOf isDeleted files)
  + List.length
      (filter (fun d => (additions d =? 0)%N && (Git.deletions d =? 0)%N)
         (map toDiff (filter (fun f => negb (binary f)) files)))
  = List.length (map toDiff (filter (fun f => negb (binary f)) files)).
Proof.
  unfold pathsOf. induction files as [|f files IH]; [reflexivity|].
  cbn [filter]. destruct (binary f); cbn [negb andb]; [exact IH|].
  cbn [map filter toDiff additions Git.deletions].
  destruct (kind_of_entry f) as [H|[H|[H|H]]]; cbv zeta in H;
    injection H as Hc Hm Hd Hz; rewrite Hc, Hm, Hd, Hz;
    cbn [map List.length]; lia.
Qed.

End ChangeSetFacts.

(** X13. When the paths recorded in [diffs] are pairwise distinct, no
    path occurs twice in the three buckets taken together: each bucket
    is free of duplicates and the buckets are pairwise disjoint. *)
Theorem X13_buckets_disjoint :
  forall (backend : SimpleGit.Backend) (base : string),
    let g := Git.initialize backend base Git.new in
    NoDup (map Git.file (Git.diffs g)) ->
    NoDup (Git.created_files g ++ Git.modified_files g
           ++ Git.deleted_files g).
Proof.
  intros backend base g Hnd.
  destruct (SimpleGit.diffSummary backend base) as [files|e] eqn:Hd.
  - destruct (initialize_files backend base files Hd) as (Hm & Hc & Hx & Hdf).
    fold g in Hm, Hc, Hx, Hdf. rewrite Hdf, map_map in Hnd.
    change (NoDup (map SimpleGit.file
                     (filter (fun f => negb (SimpleGit.binary f)) files)))
      in Hnd.
    rewrite Hm, Hc, Hx.
    apply NoDup_app; [apply pathsOf_nodup, Hnd | |].
    + apply NoDup_app; try (apply pathsOf_nodup, Hnd).
      apply pathsOf_disjoint; [exact Hnd|].
      intros f H. destruct (rule_exclusive f) as (_ & _ & Hmod).
      destruct (Hmod H); assumption.
    + intros path H1 H2. apply in_app_iff in H2. destruct H2 as [H2|H2];
        revert H2; apply pathsOf_disjoint with (k1 := Classification.isCreated);
        auto; intros f H; destruct (rule_exclusive f) as (Hcre & _ & _);
        destruct (Hcre H); assumption.
  - unfold g. rewrite (initialize_no_summary _ _ e _ Hd). constructor.
Qed.

(** Witness of X13 on the three entries of the scenario. *)
Lemma X13_buckets_disjoint_witness :
  let g := Git.initialize Sample.healthyGit "main" Git.new in
  NoDup (Git.created_files g ++ Git.modified_files g ++ Git.deleted_files g).
Proof.
  apply (X13_buckets_disjoint Sample.healthyGit "main"%string).
  repeat constructor; simpl; intuition discriminate.
Defined.

(** X14. After construction, the sizes of the three buckets and the
    number of recorded entries with no line added and none deleted add
    up to the number of recorded diffs: every recorded entry is counted
    once, in its bucket or as unclassified. *)
Theorem X14_bucket_sizes :
  forall (backend : SimpleGit.Backend) (base : string),
    let g := Git.initialize backend base Git.new in
    List.length (Git.created_files g)
    + List.length (Git.modified_files g)
    + List.length (Git.deleted_files g)
    + List.length
        (filter (fun d => (Git.additions d =? 0)%N && (Git.deletions d =? 0)%N)
           (Git.diffs g))
    = List.length (Git.diffs g).
Proof.
  intros backend base g.
  destruct (SimpleGit.diffSummary backend base) as [files|e] eqn:Hd.
  - destruct (initialize_files backend base files Hd) as (Hm & Hc & Hx & Hdf).
    fold g in Hm, Hc, Hx, Hdf. rewrite Hm, Hc, Hx, Hdf.
    apply kinds_partition.
  - unfold g. rewrite (initialize_no_summary _ _ e _ Hd). reflexivity.
Qed.

(** X15. [initialize] on an object that already holds data appends to
    the three file lists and to [diffs] and replaces [commits]: nothing
    recorded earlier is dropped from the file lists, and a second
    [initialize] records every entry a second time. *)
Theorem X15_initialize_accumulates :
  forall (backend : SimpleGit.Backend) (base : string) (g : Git.Git)
         (files : list SimpleGit.DiffResultFile)
         (all : list SimpleGit.LogEntry),
    SimpleGit.diffSummary backend base = Returned files ->
    SimpleGit.log backend base = Returned all ->
    let g' := Git.initialize backend base g in
    Git.created_files g'
      = Git.created_files g
        ++ Classification.pathsOf Classification.isCreated files
    /\ Git.modified_files g'
      = Git.modified_files g
        ++ Classification.pathsOf Classification.isModified files
    /\ Git.deleted_files g'
      = Git.deleted_files g
        ++ Classification.pathsOf Classification.isDeleted files
    /\ Git.diffs g'
      = Git.diffs g
        ++ map Git.toDiff (filter (fun f => negb (SimpleGit.binary f)) files)
    /\ Git.commits g' = map Git.toCommit all
    /\ List.length (Git.diffs (Git.initialize backend base
                                 (Git.initialize backend base Git.new)))
       = 2 * List.length (Git.diffs (Git.initialize backend base Git.new)).
Proof.
  intros backend base g files all Hd Hl g'. subst g'.
  unfold Git.initialize. rewrite Hd, Hl, !loop_result. cbn.
  repeat split. rewrite length_app. lia.
Qed.

(** Witness of X15: the healthy backend, twice. *)
Lemma X15_initialize_accumulates_witness :
  Git.created_files
    (Git.initialize Sample.healthyGit "main"
       (Git.initialize Sample.healthyGit "main" Git.new))
  = ["a.ts"; "a.ts"]%string.
Proof.
  destruct (X15_initialize_accumulates Sample.healthyGit "main"%string
              (Git.initialize Sample.healthyGit "main" Git.new)
              Sample.threeFiles
              [SimpleGit.mkLogEntry "abc123" "2024-01-01"
                 "feat: add new feature" "John Doe"]
              eq_refl eq_refl) as (Hc & _).
  rewrite Hc. reflexivity.
Defined.

(** ** Queries on the change set *)

Section QueryFacts.

Import Git.

Variable isMatch : string -> string -> bool.

Lemma hasChanges_matches_some (g : Git) (pattern : PatternArg) :
  hasChanges isMatch g pattern = true <->
  exists path p,
    In path (modified_files g ++ created_files g ++ deleted_files g)
    /\ In p (toPatterns pattern) /\ isMatch path p = true.
Proof.
  unfold hasChanges. cbn [fileMatch edited created deleted].
  rewrite !orb_true_iff, !nonempty_length. split.
  - intros H.
    assert (Hex : exists path,
      In path (micromatch isMatch
                 (modified_files g ++ created_files g ++ deleted_files g)
                 (toPatterns pattern))).
    { rewrite !micromatch_app.
      destruct H as [[H|H]|H];
        match type of H with
        | ?l <> [] => destruct l as [|x l'] eqn:E; [congruence|]
        end; exists x; rewrite !in_app_iff; simpl; auto. }
    destruct Hex as (path & Hin). apply in_micromatch in Hin.
    destruct Hin as (Hin & p & Hp & Hm). exists path, p. auto.
  - intros (path & p & Hin & Hp & Hm). rewrite !in_app_iff in Hin.
    assert (Hany : forall l, In path l ->
              micromatch isMatch l (toPatterns pattern) <> []).
    { intros l Hl E.
      assert (Hx : In path (micromatch isMatch l (toPatterns pattern))).
      { apply in_micromatch. split; [exact Hl|]. exists p. auto. }
      rewrite E in Hx. exact Hx. }
    destruct Hin as [H|[H|H]]; [left; left | left; right | right];
      apply Hany, H.
Qed.

End QueryFacts.

(** X16. [hasChanges] is true exactly when some modified, created or
    deleted path matches one of the patterns. With a list of patterns it
    is the OR of [hasChanges] on each of them, false for the empty list.
    It also counts deleted files, which [getAll()] leaves out:
    [hasChanges] holds when [getAll()] or [deleted] is not empty. *)
Theorem X16_hasChanges_decomposes :
  forall (isMatch : string -> string -> bool) (g : Git.Git)
         (ps : list string) (pattern : Git.PatternArg),
    (Git.hasChanges isMatch g pattern = true <->
       exists path p,
         In path (Git.modified_files g ++ Git.created_files g
                  ++ Git.deleted_files g)
         /\ In p (Git.toPatterns pattern) /\ isMatch path p = true)
    /\ Git.hasChanges isMatch g (Git.ManyPatterns ps)
       = existsb (fun p => Git.hasChanges isMatch g (Git.OnePattern p)) ps
    /\ Git.hasChanges isMatch g (Git.ManyPatterns []) = false
    /\ (let m := Git.fileMatch isMatch g pattern in
        Git.hasChanges isMatch g pattern
        = (0 <? List.length (Git.getAll m tt))%nat
          || (0 <? List.length (Git.deleted m))%nat).
Proof.
  intros isMatch g ps pattern.
  split; [apply hasChanges_matches_some|]. split; [|split].
  - apply eq_iff_eq_true. rewrite hasChanges_matches_some, existsb_exists.
    split.
    + intros (path & p & Hin & Hp & Hm). exists p. split; [exact Hp|].
      apply hasChanges_matches_some. exists path, p. simpl. auto.
    + intros (p & Hp & H). apply hasChanges_matches_some in H.
      destruct H as (path & p' & Hin & Hp' & Hm). exists path, p'.
      simpl in Hp'. destruct Hp' as [<-|[]]. auto.
  - destruct (Git.hasChanges isMatch g (Git.ManyPatterns [])) eqn:E;
      [|reflexivity].
    apply hasChanges_matches_some in E.
    destruct E as (path & p & _ & [] & _).
  - unfold Git.hasChanges. cbn [Git.fileMatch Git.edited Git.created
      Git.deleted Git.getAll]. rewrite length_app.
    destruct (Git.micromatch isMatch (Git.modified_files g) _),
             (Git.micromatch isMatch (Git.created_files g) _);
      reflexivity.
Qed.

(** ** The pull-request number of a ref *)

Section RefFacts.

Local Open Scope string_scope.

Lemma takeDigits_digits (d rest : string) :
  RefSyntax.allDigits d = true ->
  String.prefix "/" rest = true ->
  GitHub.takeDigits (d ++ rest) = (d, rest).
Proof.
  intros Hd Hr. induction d as [|c d IH].
  - apply prefix_split in Hr. destruct Hr as [b ->]. reflexivity.
  - simpl in Hd. apply andb_true_iff in Hd. destruct Hd as [Hc Hd].
    cbn [append GitHub.takeDigits]. rewrite Hc, (IH Hd). reflexivity.
Qed.

Lemma takeDigits_sound (s d r : string) :
  GitHub.takeDigits s = (d, r) -> RefSyntax.allDigits d = true /\ s = d ++ r.
Proof.
  revert d r. induction s as [|c s IH]; intros d r; cbn [GitHub.takeDigits].
  - intros H. inversion H. auto.
  - destruct (GitHub.isDigit c) eqn:Hc.
    + destruct (GitHub.takeDigits s) as [d' r'] eqn:Ht.
      intros H. inversion H; subst. destruct (IH d' r eq_refl) as [Hd ->].
      simpl. rewrite Hc, Hd. auto.
    + intros H. inversion H. auto.
Qed.

Lemma substring_drop (p s : string) :
  String.substring (String.length p)
    (String.length (p ++ s) - String.length p) (p ++ s) = s.
Proof.
  induction p as [|c p IH]; simpl.
  - rewrite Nat.sub_0_r. clear. induction s as [|c s IH]; simpl;
      [reflexivity|]. rewrite IH. reflexivity.
  - exact IH.
Qed.

End RefFacts.

Section PullRefFacts.

Local Open Scope string_scope.

Lemma matchPullRef_unfold (s : string) :
  GitHub.matchPullRef s =
    match GitHub.pullRefAt s with
    | Some d => Some d
    | None =>
        match s with
        | String _ rest => GitHub.matchPullRef rest
        | EmptyString => None
        end
    end.
Proof. destruct s; reflexivity. Qed.

Lemma pullRefAt_sound (s d : string) :
  GitHub.pullRefAt s = Some d ->
  d <> EmptyString /\ RefSyntax.allDigits d = true
  /\ exists rest, s = "refs/pull/" ++ d ++ "/" ++ rest.
Proof.
  unfold GitHub.pullRefAt.
  destruct (String.prefix "refs/pull/" s) eqn:Hp; [|discriminate].
  apply prefix_split in Hp. destruct Hp as [t ->].
  rewrite substring_drop.
  destruct (GitHub.takeDigits t) as [d' r] eqn:Ht.
  destruct (takeDigits_sound _ _ _ Ht) as [Hd ->].
  destruct (String.eqb_spec d' EmptyString) as [|Hne]; [discriminate|].
  cbn [negb andb]. destruct (String.prefix "/" r) eqn:Hr; [|discriminate].
  intros H. inversion H; subst d'. apply prefix_split in Hr.
  destruct Hr as [b ->]. split; [exact Hne|]. split; [exact Hd|].
  exists b. reflexivity.
Qed.

End PullRefFacts.

(** X17. A ref of the form [refs/pull/<digits>/...], with at least one
    digit, yields exactly these digits as pull-request number, whatever
    follows the slash. *)
Theorem X17_pull_number_of_ref :
  forall (env : string -> option string) (digits rest : string),
    RefSyntax.allDigits digits = true ->
    digits <> EmptyString ->
    env "GITHUB_REF"%string
      = Some ("refs/pull/" ++ digits ++ "/" ++ rest)%string ->
    GitHub.extractPRNumberFromRef env = Some digits.
Proof.
  intros env digits rest Hd Hne Href.
  unfold GitHub.extractPRNumberFromRef. rewrite Href.
  cbn [truthy interpolate].
  change (String.eqb ("refs/pull/" ++ digits ++ "/" ++ rest) EmptyString)
    with false. cbn [negb].
  rewrite matchPullRef_unfold. unfold GitHub.pullRefAt.
  rewrite prefix_append, substring_drop.
  rewrite (takeDigits_digits digits ("/" ++ rest) Hd
             (prefix_append "/" rest)).
  rewrite (prefix_append "/" rest).
  apply String.eqb_neq in Hne. rewrite Hne. reflexivity.
Qed.

(** Witness of X17: the ref of a GitHub Actions pull-request run. *)
Lemma X17_pull_number_of_ref_witness :
  GitHub.extractPRNumberFromRef Sample.actionsEnv = Some "7"%string.
Proof.
  apply (X17_pull_number_of_ref Sample.actionsEnv "7" "merge" eq_refl).
  - discriminate.
  - reflexivity.
Defined.

(** X18. Whatever the ref, a pull-request number extracted from it is a
    non-empty string of decimal digits that stands in the ref between
    [refs/pull/] and a slash; a ref without such a part, or no ref at
    all, gives none. *)
Theorem X18_pull_number_is_numeral :
  forall (env : string -> option string) (d : string),
    GitHub.extractPRNumberFromRef env = Some d ->
    d <> EmptyString
    /\ RefSyntax.allDigits d = true
    /\ exists ref,
         env "GITHUB_REF"%string = Some ref
         /\ includes ("refs/pull/" ++ d ++ "/")%string ref = true.
Proof.
  intros env d. unfold GitHub.extractPRNumberFromRef.
  destruct (env "GITHUB_REF"%string) as [ref|]; [|discriminate].
  cbn [truthy interpolate]. destruct (negb _); [|discriminate].
  intros H.
  assert (Hs : d <> EmptyString /\ RefSyntax.allDigits d = true
               /\ includes ("refs/pull/" ++ d ++ "/")%string ref = true).
  { revert H. induction ref as [|c ref IH]; rewrite matchPullRef_unfold.
    - destruct (GitHub.pullRefAt EmptyString) eqn:Hp; [|discriminate].
      discriminate Hp.
    - destruct (GitHub.pullRefAt (String c ref)) as [d'|] eqn:Hp.
      + intros H. inversion H; subst d'.
        destruct (pullRefAt_sound _ _ Hp) as (Hne & Hd & rest & ->).
        split; [exact Hne|]. split; [exact Hd|].
        apply includes_split. exists EmptyString, rest.
        rewrite !append_associative. reflexivity.
      + intros H. destruct (IH H) as (Hne & Hd & Hi).
        split; [exact Hne|]. split; [exact Hd|].
        cbn [includes]. rewrite Hi. apply orb_true_r. }
  destruct Hs as (Hne & Hd & Hi). split; [exact Hne|]. split; [exact Hd|].
  exists ref. auto.
Qed.

(** Witness of X18 on the same environment. *)
Lemma X18_pull_number_is_numeral_witness :
  RefSyntax.allDigits "7" = true.
Proof.
  apply (X18_pull_number_is_numeral Sample.actionsEnv "7"%string eq_refl).
Defined.

(** ** The GitHub adapter *)

(** X19. Without a repository in [GITHUB_REPOSITORY], or without a
    pull-request number in [GITHUB_PR_NUMBER] and in [GITHUB_REF],
    [initialize] throws "Missing GitHub environment variables" and
    leaves the object as it was, whatever the API would answer. *)
Theorem X19_initialize_missing_context :
  forall (env : string -> option string) (api : Octokit.Api)
         (errorStack : string -> string) (obj : GitHub.GitHub),
    truthy (env "GITHUB_REPOSITORY"%string) = false
    \/ (truthy (env "GITHUB_PR_NUMBER"%string) = false
        /\ GitHub.extractPRNumberFromRef env = None) ->
    exists st,
      GitHub.initialize env api errorStack obj
      = (obj,
         Threw (ErrorObject
                  "Missing GitHub environment variables. Set GITHUB_REPOSITORY and GITHUB_PR_NUMBER"
                  st)).
Proof.
  intros env api errorStack obj H. unfold GitHub.initialize.
  eexists. destruct H as [H|[H1 H2]].
  - rewrite H. reflexivity.
  - rewrite H1, H2. rewrite orb_true_r. reflexivity.
Qed.

(** Witness of X19: an empty environment. *)
Lemma X19_initialize_missing_context_witness :
  fst (GitHub.initialize Sample.noEnv Sample.unreachableApi (fun m => m)
         GitHub.new) = GitHub.new.
Proof.
  destruct (X19_initialize_missing_context Sample.noEnv
              Sample.unreachableApi (fun m => m) GitHub.new
              (or_introl eq_refl)) as [st ->].
  reflexivity.
Defined.

(** X20. With the repository and [GITHUB_PR_NUMBER] set (the latter
    wins over [GITHUB_REF]), [initialize] fetches in the order pull
    request, reviews, comments. When all answer, the three fields are
    filled, issue comments before review comments. When the pull
    request is served but the reviews fail, the call throws that error
    and [pr] is already assigned while [reviews] and [comments] are as
    before; when the pull request itself fails, nothing is assigned. *)
Theorem X20_initialize_fetch_order :
  forall (env : string -> option string) (api : Octokit.Api)
         (errorStack : string -> string) (obj : GitHub.GitHub)
         (repo number : string),
    env "GITHUB_REPOSITORY"%string = Some repo -> repo <> EmptyString ->
    env "GITHUB_PR_NUMBER"%string = Some number -> number <> EmptyString ->
    (forall data rs ics rcs,
        Octokit.pulls_get api repo number = Returned data ->
        Octokit.pulls_listReviews api repo number = Returned rs ->
        Octokit.issues_listComments api repo number = Returned ics ->
        Octokit.pulls_listReviewComments api repo number = Returned rcs ->
        GitHub.initialize env api errorStack obj
        = ({| GitHub.pr := Some (GitHub.toPR data);
              GitHub.reviews := map GitHub.toReview rs;
              GitHub.comments :=
                map GitHub.toIssueComment ics
                ++ map GitHub.toReviewComment rcs |},
           Returned tt))
    /\ (forall data e,
          Octokit.pulls_get api repo number = Returned data ->
          Octokit.pulls_listReviews api repo number = Threw e ->
          GitHub.initialize env api errorStack obj
          = ({| GitHub.pr := Some (GitHub.toPR data);
                GitHub.reviews := GitHub.reviews obj;
                GitHub.comments := GitHub.comments obj |},
             Threw e))
    /\ (forall e,
          Octokit.pulls_get api repo number = Threw e ->
          GitHub.initialize env api errorStack obj = (obj, Threw e)).
Proof.
  intros env api errorStack obj repo number Hr Hrne Hn Hnne.
  unfold GitHub.initialize. rewrite Hr, Hn.
  rewrite !(truthy_nonempty _ Hrne), !(truthy_nonempty _ Hnne).
  cbn [negb orb interpolate].
  unfold GitHub.fetchPR, GitHub.fetchReviews, GitHub.fetchComments,
    bind, perform, update.
  split; [|split].
  - intros data rs ics rcs H1 H2 H3 H4. rewrite H1, H2, H3, H4. reflexivity.
  - intros data e H1 H2. rewrite H1, H2. reflexivity.
  - intros e H1. rewrite H1. reflexivity.
Qed.

(** Witness of X20: the API is unreachable from the first request on. *)
Lemma X20_initialize_fetch_order_witness :
  GitHub.initialize
    (fun name =>
       if String.eqb name "GITHUB_REPOSITORY" then Some "rgourley/Velvet"%string
       else if String.eqb name "GITHUB_PR_NUMBER" then Some "7"%string
       else None)
    Sample.unreachableApi (fun m => m) GitHub.new
  = (GitHub.new, Threw (ErrorObject "HttpError: Not Found" None)).
Proof.
  destruct (X20_initialize_fetch_order
              (fun name =>
                 if String.eqb name "GITHUB_REPOSITORY"
                 then Some "rgourley/Velvet"%string
                 else if String.eqb name "GITHUB_PR_NUMBER"
                      then Some "7"%string
                      else None)
              Sample.unreachableApi (fun m => m) GitHub.new
              "rgourley/Velvet"%string "7"%string eq_refl
              ltac:(discriminate) eq_refl ltac:(discriminate))
    as (_ & _ & Hfirst).
  apply Hfirst. reflexivity.
Defined.

(** X21. [titleMatches] with a string is case-sensitive containment: it
    answers true exactly when the title has the string as a substring,
    so always for the empty string. On an object whose [pr] was never
    assigned it throws instead of answering. *)
Theorem X21_titleMatches_literal :
  forall (errorStack : string -> string) (g : GitHub.GitHub) (text : string),
    (forall p,
        GitHub.pr g = Some p ->
        (GitHub.titleMatches errorStack g (GitHub.Literal text)
         = Returned true
         <-> exists a b, GitHub.title p = (a ++ text ++ b)%string)
        /\ (GitHub.titleMatches errorStack g (GitHub.Literal text)
            = Returned true
            \/ GitHub.titleMatches errorStack g (GitHub.Literal text)
               = Returned false)
        /\ GitHub.titleMatches errorStack g (GitHub.Literal EmptyString)
           = Returned true)
    /\ (GitHub.pr g = None ->
        forall pattern,
          exists e, GitHub.titleMatches errorStack g pattern = Threw e).
Proof.
  intros errorStack g text. unfold GitHub.titleMatches. split.
  - intros p ->. split; [|split].
    + rewrite <- includes_split. split; intros H.
      * inversion H. reflexivity.
      * rewrite H. reflexivity.
    + destruct (includes text (GitHub.title p)); auto.
    + f_equal. apply includes_here, prefix_empty.
  - intros ->. intros pattern. eexists. reflexivity.
Qed.

(** Witness of X21: the object as [new GitHub()] leaves it. *)
Lemma X21_titleMatches_literal_witness :
  exists e,
    GitHub.titleMatches (fun m => m) GitHub.new (GitHub.Literal "feat")
    = Threw e.
Proof.
  destruct (X21_titleMatches_literal (fun m => m) GitHub.new "feat"%string)
    as [_ Hnone].
  apply (Hnone eq_refl).
Defined.

(** X22. In the review context, [isGitHub] tells whether both
    [GITHUB_ACTIONS] and [GITHUB_REPOSITORY] are set, whatever
    [enableGitHub] says; [github] is undefined exactly when GitHub was
    switched off or the run is not a GitHub Actions run; and the Git
    data is the same with GitHub on or off. *)
Theorem X22_context_github_presence :
  forall (host : Host) (baseBranch : option string)
         (enableGitHub : option bool) (repoPath : option string),
    let review :=
      Index.createReviewContext host baseBranch enableGitHub repoPath in
    Dsl.isGitHub review
      = truthy (process_env host "GITHUB_ACTIONS"%string)
        && truthy (process_env host "GITHUB_REPOSITORY"%string)
    /\ (Dsl.github review = None
        <-> enableGitHub = Some false \/ Dsl.isGitHub review = false)
    /\ Dsl.git review
       = Dsl.git (Index.createReviewContext host baseBranch (Some false)
                    repoPath).
Proof.
  intros host baseBranch enableGitHub repoPath review. subst review.
  unfold Index.createReviewContext. cbn [Dsl.isGitHub Dsl.github Dsl.git].
  split; [reflexivity|]. split; [|reflexivity].
  pose proof (tryInitialize_present host) as Hp.
  destruct enableGitHub as [[|]|];
    destruct (truthy (process_env host "GITHUB_ACTIONS"%string)
              && truthy (process_env host "GITHUB_REPOSITORY"%string));
    cbn [andb]; split; intros H; auto; try contradiction;
    destruct H as [H|H]; discriminate H.
Qed.

(** Witness of X2: one failure with a location and one markdown
    block. *)
Lemma X2_markdown_keeps_findings_witness :
  includes "bad"
    (Render.formatAsMarkdown
       (Results.calls
          [Results.CallAddFailure "bad" (Some "a.ts"%string) (Some 3%Z);
           Results.CallAddMarkdown "note"] Results.empty)) = true
  /\ includes "note"
       (Render.formatAsMarkdown
          (Results.calls
             [Results.CallAddFailure "bad" (Some "a.ts"%string) (Some 3%Z);
              Results.CallAddMarkdown "note"] Results.empty)) = true.
Proof.
  destruct (X2_markdown_keeps_findings
              (Results.calls
                 [Results.CallAddFailure "bad" (Some "a.ts"%string) (Some 3%Z);
                  Results.CallAddMarkdown "note"] Results.empty))
    as [Hfindings Hblocks].
  split.
  - apply (Hfindings
             (Results.mkReviewResult Results.LevelFail "bad"
                (Some "a.ts"%string) (Some 3%Z))).
    simpl. auto.
  - apply Hblocks. simpl. auto.
Defined.

(** X25. The catch block of [executeReviewFile] does not guard its own
    conversion: when the reviewfile throws a value that is not an
    [Error] and has no string form, [evaluate] throws what the
    conversion raised, and no failure is recorded for the thrown value:
    the collectors are as the reviewfile left them. *)
Theorem X25_throw_without_string_form :
  forall (host : Host) (this : Evaluator.Options) (f : Dsl.ReviewFunction)
         (h h1 : Dsl.Heap) (raised : Thrown),
    let target := Evaluator.opt_resultsCollector this in
    let located :=
      Loader.findReviewFile host (Some (Evaluator.opt_reviewFilePath this))
        (Some (Evaluator.opt_projectRoot this)) in
    let context :=
      Index.createReviewContext host (Some (Evaluator.opt_baseBranch this))
        (Some (Evaluator.opt_enableGitHub this))
        (Some (Evaluator.opt_projectRoot this)) in
    Loader.exists_ located = true ->
    readable host (Loader.absolutePath located) = true ->
    import host (Loader.absolutePath located) = Returned (Callable f) ->
    f context (Dsl.on target Results.reset h)
      = (h1, Threw (NoStringForm raised)) ->
    Evaluator.evaluate host this h = (h1, Threw raised).
Proof.
  intros host this f h h1 raised target located context He Hr Hi Hf.
  rewrite (evaluate_after_loading host this f h He Hr Hi).
  rewrite executeReviewFile_cases. fold target context. rewrite Hf.
  reflexivity.
Qed.

(** Witness of X25: a warning, then [throw Object.create(null)]. *)
Lemma X25_throw_without_string_form_witness :
  exists h' m st,
    Evaluator.runReview
      (Sample.host ["/repo/reviewfile.ts"%string] Sample.healthyGit
         Sample.noEnv Sample.warnThenThrowBare)
      Sample.defaultOptions Sample.freshHeap
    = (h', Threw (ErrorObject m st))
    /\ Results.failures (Dsl.globalResultsCollector h') = []
    /\ List.length (Results.warnings (Dsl.globalResultsCollector h')) = 1.
Proof.
  pose (host := Sample.host ["/repo/reviewfile.ts"%string] Sample.healthyGit
                  Sample.noEnv Sample.warnThenThrowBare).
  eexists. eexists. eexists. split.
  - apply (X25_throw_without_string_form host
             (Evaluator.new host Sample.defaultOptions)
             Sample.warnThenThrowBare Sample.freshHeap
             (Dsl.on Dsl.TheGlobalCollector
                (Results.addWarning "w" None None) Sample.freshHeap)
             _ eq_refl eq_refl eq_refl eq_refl).
  - split; reflexivity.
Defined.
